(** * The Wisdom Kernel Method step sequencer of REBOUND (src/integrator_wkm.c)

    A shallow embedding of [integrator_wkm.c].  The C functions mutate a
    [struct reb_simulation] in place and call the drift / kick / transform
    routines of the WHFast integrator, which live in other translation
    units.  Here the simulation is a record, every C function is a
    computation in a small state monad that also records the external calls
    it makes (in order, with their arguments), and the external routines are
    the fields of a class [External].  C [double] is IEEE binary64, modelled
    by Rocq's primitive [float]. *)

From Stdlib Require Import ZArith List String Floats Bool Lia.
Import ListNotations.
#[local] Set Warnings "-inexact-float".
Local Open Scope Z_scope.

(** ** Data model *)

(** [struct reb_particle] (rebound.h): the numeric fields that this file and
    its callees read or write. *)
Record reb_particle : Set := mk_particle {
  x : float; y : float; z : float;
  vx : float; vy : float; vz : float;
  ax : float; ay : float; az : float;
  m : float
}.

Definition particle0 : reb_particle :=
  mk_particle 0 0 0 0 0 0 0 0 0 0.

(** The coordinate-scheme selector of WHFast (an enum in rebound.h); the
    code only compares it with [REB_WHFAST_COORDINATES_JACOBI]. *)
Inductive REB_WHFAST_COORDINATES : Set :=
| REB_WHFAST_COORDINATES_JACOBI
| REB_WHFAST_COORDINATES_DEMOCRATICHELIOCENTRIC
| REB_WHFAST_COORDINATES_WHDS.

Definition is_jacobi (c : REB_WHFAST_COORDINATES) : bool :=
  match c with REB_WHFAST_COORDINATES_JACOBI => true | _ => false end.

(** [struct reb_simulation_integrator_whfast]: the fields used here.  [p_jh]
    is a pointer: [None] is NULL, [Some l] an allocated array. *)
Record reb_simulation_integrator_whfast : Set := mk_whfast {
  coordinates : REB_WHFAST_COORDINATES;
  recalculate_coordinates_this_timestep : Z;
  keep_unsynchronized : Z;
  p_jh : option (list reb_particle)
}.

(** [struct reb_simulation_integrator_wkm]. *)
Record reb_simulation_integrator_wkm : Set := mk_wkm {
  corrector : Z;
  safe_mode : Z;
  is_synchronized : Z;
  temp_pj : option (list reb_particle);
  allocated_N : Z
}.

(** [struct reb_simulation]: the fields used here, and the message buffer
    that [reb_error] reports into. *)
Record reb_simulation : Set := mk_sim {
  t : float;
  dt : float;
  dt_last_done : float;
  G : float;
  N : Z;
  var_config_N : Z;
  gravity_ignore_terms : Z;
  particles : list reb_particle;
  ri_whfast : reb_simulation_integrator_whfast;
  ri_wkm : reb_simulation_integrator_wkm;
  messages : list string
}.

(** *** Field assignments *)

Definition set_t (v : float) (r : reb_simulation) : reb_simulation :=
  mk_sim v (dt r) (dt_last_done r) (G r) (N r) (var_config_N r)
    (gravity_ignore_terms r) (particles r) (ri_whfast r) (ri_wkm r) (messages r).

Definition set_dt_last_done (v : float) (r : reb_simulation) : reb_simulation :=
  mk_sim (t r) (dt r) v (G r) (N r) (var_config_N r)
    (gravity_ignore_terms r) (particles r) (ri_whfast r) (ri_wkm r) (messages r).

Definition set_gravity_ignore_terms (v : Z) (r : reb_simulation) : reb_simulation :=
  mk_sim (t r) (dt r) (dt_last_done r) (G r) (N r) (var_config_N r)
    v (particles r) (ri_whfast r) (ri_wkm r) (messages r).

Definition set_particles (v : list reb_particle) (r : reb_simulation) : reb_simulation :=
  mk_sim (t r) (dt r) (dt_last_done r) (G r) (N r) (var_config_N r)
    (gravity_ignore_terms r) v (ri_whfast r) (ri_wkm r) (messages r).

Definition set_ri_whfast (v : reb_simulation_integrator_whfast) (r : reb_simulation)
  : reb_simulation :=
  mk_sim (t r) (dt r) (dt_last_done r) (G r) (N r) (var_config_N r)
    (gravity_ignore_terms r) (particles r) v (ri_wkm r) (messages r).

Definition set_ri_wkm (v : reb_simulation_integrator_wkm) (r : reb_simulation)
  : reb_simulation :=
  mk_sim (t r) (dt r) (dt_last_done r) (G r) (N r) (var_config_N r)
    (gravity_ignore_terms r) (particles r) (ri_whfast r) v (messages r).

Definition set_messages (v : list string) (r : reb_simulation) : reb_simulation :=
  mk_sim (t r) (dt r) (dt_last_done r) (G r) (N r) (var_config_N r)
    (gravity_ignore_terms r) (particles r) (ri_whfast r) (ri_wkm r) v.

Definition set_recalculate_coordinates_this_timestep (v : Z) (r : reb_simulation)
  : reb_simulation :=
  let w := ri_whfast r in
  set_ri_whfast (mk_whfast (coordinates w) v (keep_unsynchronized w) (p_jh w)) r.

Definition set_p_jh (v : option (list reb_particle)) (r : reb_simulation)
  : reb_simulation :=
  let w := ri_whfast r in
  set_ri_whfast
    (mk_whfast (coordinates w) (recalculate_coordinates_this_timestep w)
       (keep_unsynchronized w) v) r.

Definition set_is_synchronized (v : Z) (r : reb_simulation) : reb_simulation :=
  let k := ri_wkm r in
  set_ri_wkm (mk_wkm (corrector k) (safe_mode k) v (temp_pj k) (allocated_N k)) r.

Definition set_temp_pj (v : option (list reb_particle)) (r : reb_simulation)
  : reb_simulation :=
  let k := ri_wkm r in
  set_ri_wkm (mk_wkm (corrector k) (safe_mode k) (is_synchronized k) v (allocated_N k)) r.

Definition set_allocated_N (v : Z) (r : reb_simulation) : reb_simulation :=
  let k := ri_wkm r in
  set_ri_wkm (mk_wkm (corrector k) (safe_mode k) (is_synchronized k) (temp_pj k) v) r.

(** *** Arrays of particles

    A NULL pointer read as an array is undefined behaviour in C; the model
    reads the empty array.  Indexing past the end is undefined behaviour as
    well; the model reads [particle0] and drops the write.  The theorems
    about the array code assume the buffers hold [N] particles. *)

Definition deref (p : option (list reb_particle)) : list reb_particle :=
  match p with Some l => l | None => [] end.

(** writing through a pointer: a NULL pointer stays NULL *)
Definition store (p : option (list reb_particle)) (l : list reb_particle)
  : option (list reb_particle) :=
  match p with Some _ => Some l | None => None end.

Definition p_j_get (l : list reb_particle) (i : nat) : reb_particle :=
  nth i l particle0.

Fixpoint p_j_upd (i : nat) (f : reb_particle -> reb_particle)
  (l : list reb_particle) : list reb_particle :=
  match l, i with
  | [], _ => []
  | p :: l', O => f p :: l'
  | p :: l', S i' => p :: p_j_upd i' f l'
  end.

(** [malloc(sizeof(struct reb_particle)*n)]: [n] particles of indeterminate
    content, read as [particle0]. *)
Definition malloc (n : Z) : list reb_particle := repeat particle0 (Z.to_nat n).

(** [realloc(p, sizeof(struct reb_particle)*n)]: keeps the first [n]
    particles, pads with indeterminate ones. *)
Definition realloc (p : option (list reb_particle)) (n : Z) : list reb_particle :=
  let l := deref p in
  firstn (Z.to_nat n) l ++ repeat particle0 (Z.to_nat n - List.length l).

(** [memcpy(dst, src, n*sizeof(struct reb_particle))]: the first [n]
    particles of [dst] are replaced by those of [src]. *)
Definition memcpy (dst src : list reb_particle) (n : Z) : list reb_particle :=
  firstn (Z.to_nat n) src ++ skipn (Z.to_nat n) dst.

Definition set_pos (px py pz : float) (p : reb_particle) : reb_particle :=
  mk_particle px py pz (vx p) (vy p) (vz p) (ax p) (ay p) (az p) (m p).

Definition set_acc (pax pay paz : float) (p : reb_particle) : reb_particle :=
  mk_particle (x p) (y p) (z p) (vx p) (vy p) (vz p) pax pay paz (m p).

(** ** External routines

    The routines of integrator_whfast.c, transformations.c, gravity.c and
    rebound.c that this file calls.  Those taking the simulation pointer may
    touch the whole simulation; the coordinate transformations take their
    arrays explicitly and write the array named in the comment. *)
Class External : Type := {
  (* reb_whfast_kepler_step(r, a) *)
  ext_kepler_step : float -> reb_simulation -> reb_simulation;
  (* reb_whfast_com_step(r, a) *)
  ext_com_step : float -> reb_simulation -> reb_simulation;
  (* reb_whfast_interaction_step(r, b) *)
  ext_interaction_step : float -> reb_simulation -> reb_simulation;
  (* reb_update_acceleration(r) *)
  ext_update_acceleration : reb_simulation -> reb_simulation;
  (* reb_transformations_jacobi_to_inertial_pos(particles, p_j, p_mass, N):
     the new content of [particles] *)
  ext_jacobi_to_inertial_pos :
    list reb_particle -> list reb_particle -> list reb_particle -> Z -> list reb_particle;
  (* reb_transformations_jacobi_to_inertial_posvel(particles, p_j, p_mass, N):
     the new content of [particles] *)
  ext_jacobi_to_inertial_posvel :
    list reb_particle -> list reb_particle -> list reb_particle -> Z -> list reb_particle;
  (* reb_transformations_inertial_to_jacobi_acc(particles, p_j, p_mass, N):
     the new content of [p_j] *)
  ext_inertial_to_jacobi_acc :
    list reb_particle -> list reb_particle -> list reb_particle -> Z -> list reb_particle;
  (* int reb_integrator_whfast_init(r): the return value and the new state *)
  ext_whfast_init : reb_simulation -> Z * reb_simulation;
  (* reb_integrator_whfast_from_inertial(r) *)
  ext_whfast_from_inertial : reb_simulation -> reb_simulation;
  (* reb_integrator_whfast_to_inertial(r) *)
  ext_whfast_to_inertial : reb_simulation -> reb_simulation;
  (* reb_error(r, msg) *)
  ext_error : string -> reb_simulation -> reb_simulation;
  (* the (a, b) arguments that reb_whfast_apply_corrector(r, inv, order, Z)
     passes to its callback, in order, for the time step dt *)
  ext_corrector_coefficients : float -> Z -> float -> list (float * float)
}.

(** One external call, with the scalar arguments it was given. *)
Inductive call : Set :=
| call_kepler_step (a : float)
| call_com_step (a : float)
| call_interaction_step (b : float)
| call_update_acceleration
| call_jacobi_to_inertial_pos (n : Z)
| call_jacobi_to_inertial_posvel (n : Z)
| call_inertial_to_jacobi_acc (n : Z)
| call_whfast_init
| call_whfast_from_inertial
| call_whfast_to_inertial
| call_error (msg : string).

(** ** The monad: state, and the log of external calls *)

Definition M (A : Type) : Type := reb_simulation -> A * reb_simulation * list call.

Definition ret {A : Type} (a : A) : M A := fun r => (a, r, []).

Definition bind {A B : Type} (c : M A) (k : A -> M B) : M B :=
  fun r =>
    let '(a, r1, l1) := c r in
    let '(b, r2, l2) := k a r1 in
    (b, r2, l1 ++ l2).

Definition gets {A : Type} (f : reb_simulation -> A) : M A := fun r => (f r, r, []).

Definition modify (f : reb_simulation -> reb_simulation) : M unit :=
  fun r => (tt, f r, []).

Declare Scope wkm_scope.
Delimit Scope wkm_scope with wkm.
Notation "v <- c ;; k" := (bind c (fun v => k))
  (at level 61, c at next level, right associativity) : wkm_scope.
Notation "c ;; k" := (bind c (fun _ => k))
  (at level 61, right associativity) : wkm_scope.
Local Open Scope wkm_scope.

Definition state_of {A : Type} (o : A * reb_simulation * list call) : reb_simulation :=
  snd (fst o).
Definition calls_of {A : Type} (o : A * reb_simulation * list call) : list call :=
  snd o.

Fixpoint for_each {A : Type} (l : list A) (body : A -> M unit) : M unit :=
  match l with
  | [] => ret tt
  | a :: l' => body a ;; for_each l' body
  end.

Section Wkm.

Context {E : External}.

(** The effect of a call on the simulation. *)
Definition exec (c : call) (r : reb_simulation) : reb_simulation :=
  match c with
  | call_kepler_step a => ext_kepler_step a r
  | call_com_step a => ext_com_step a r
  | call_interaction_step b => ext_interaction_step b r
  | call_update_acceleration => ext_update_acceleration r
  | call_jacobi_to_inertial_pos n =>
      set_particles
        (ext_jacobi_to_inertial_pos (particles r) (deref (p_jh (ri_whfast r)))
           (particles r) n) r
  | call_jacobi_to_inertial_posvel n =>
      set_particles
        (ext_jacobi_to_inertial_posvel (particles r) (deref (p_jh (ri_whfast r)))
           (particles r) n) r
  | call_inertial_to_jacobi_acc n =>
      set_p_jh
        (store (p_jh (ri_whfast r))
           (ext_inertial_to_jacobi_acc (particles r) (deref (p_jh (ri_whfast r)))
              (particles r) n)) r
  | call_whfast_init => snd (ext_whfast_init r)
  | call_whfast_from_inertial => ext_whfast_from_inertial r
  | call_whfast_to_inertial => ext_whfast_to_inertial r
  | call_error msg => ext_error msg r
  end.

Definition perform (c : call) : M unit := fun r => (tt, exec c r, [c]).

Definition reb_whfast_kepler_step (a : float) : M unit := perform (call_kepler_step a).
Definition reb_whfast_com_step (a : float) : M unit := perform (call_com_step a).
Definition reb_whfast_interaction_step (b : float) : M unit :=
  perform (call_interaction_step b).
Definition reb_update_acceleration : M unit := perform call_update_acceleration.
(** The three transformations are always called on
    [(r->particles, ri_whfast->p_jh, r->particles, n)]. *)
Definition reb_transformations_jacobi_to_inertial_pos (n : Z) : M unit :=
  perform (call_jacobi_to_inertial_pos n).
Definition reb_transformations_jacobi_to_inertial_posvel (n : Z) : M unit :=
  perform (call_jacobi_to_inertial_posvel n).
Definition reb_transformations_inertial_to_jacobi_acc (n : Z) : M unit :=
  perform (call_inertial_to_jacobi_acc n).
Definition reb_integrator_whfast_init : M Z :=
  fun r => (fst (ext_whfast_init r), exec call_whfast_init r, [call_whfast_init]).
Definition reb_integrator_whfast_from_inertial : M unit := perform call_whfast_from_inertial.
Definition reb_integrator_whfast_to_inertial : M unit := perform call_whfast_to_inertial.
Definition reb_error (msg : string) : M unit := perform (call_error msg).

(** Modelled from the spec: [reb_whfast_apply_corrector] is defined in
    integrator_whfast.c, which is not among the sources.  It "applies a
    fixed ... antisymmetric composition of the Corrector Kernel Z": a
    sequence of calls of its callback, whose coefficients are fixed by the
    sign [inv], the [order] and the time step read on entry. *)
Definition reb_whfast_apply_corrector (inv : float) (order : Z)
  (corrector_Z : float -> float -> M unit) : M unit :=
  d <- gets dt ;;
  for_each (ext_corrector_coefficients inv order d)
    (fun ab => corrector_Z (fst ab) (snd ab)).

(** ** integrator_wkm.c *)

(** lines 46-59 *)
Definition reb_wkm_corrector_Z (a b : float) : M unit :=
  N_real <- gets N ;;
  reb_whfast_kepler_step a ;;
  reb_transformations_jacobi_to_inertial_pos N_real ;;
  reb_update_acceleration ;;
  reb_whfast_interaction_step (- b)%float ;;
  reb_whfast_kepler_step (-2 * a)%float ;;
  reb_transformations_jacobi_to_inertial_pos N_real ;;
  reb_update_acceleration ;;
  reb_whfast_interaction_step b ;;
  reb_whfast_kepler_step a.

(** lines 60-73 *)
Definition reb_wkm_apply_C (a b : float) : M unit :=
  reb_whfast_kepler_step a ;;
  reb_whfast_com_step a ;;
  N_real <- gets N ;;
  reb_transformations_jacobi_to_inertial_pos N_real ;;
  reb_update_acceleration ;;
  reb_whfast_interaction_step b ;;
  reb_whfast_kepler_step (- a)%float ;;
  reb_whfast_com_step (- a)%float.

(** lines 75-78 *)
Definition reb_wkm_apply_Y (a b : float) : M unit :=
  reb_wkm_apply_C a b ;;
  reb_wkm_apply_C (- a)%float (- b)%float.

(** lines 79-86 *)
Definition reb_wkm_apply_U (a b : float) : M unit :=
  reb_whfast_kepler_step a ;;
  reb_whfast_com_step a ;;
  reb_wkm_apply_Y a b ;;
  reb_wkm_apply_Y a (- b)%float ;;
  reb_whfast_kepler_step (- a)%float ;;
  reb_whfast_com_step (- a)%float.

(** lines 87-92 *)
Definition reb_wkm_apply_corrector2 (dt : float) : M unit :=
  let a := (0.5 * dt)%float in
  let b := (0.03486083443891981449909050107438281205803 * dt)%float in
  reb_wkm_apply_U a b ;;
  reb_wkm_apply_U (- a)%float b.

(** lines 94-142.  [%] and [/] of C truncate towards zero: [Z.rem], [Z.quot]. *)
Definition reb_integrator_wkm_part1 : M unit :=
  c <- gets (fun r => corrector (ri_wkm r)) ;;
  let corrector := Z.rem c 10 in
  let kernel := Z.quot c 10 in
  modify (set_gravity_ignore_terms 1) ;;
  var_N <- gets var_config_N ;;
  coords <- gets (fun r => coordinates (ri_whfast r)) ;;
  if (0 <? var_N) && negb (is_jacobi coords) then
    reb_error "Variational particles are not supported in the WKM integrator."
  else if negb (is_jacobi coords) then
    reb_error "WKM integrator requires ri_whfast.coordinates to be set to Jacobi coordinates."
  else if 1 <? kernel then
    reb_error "WKM Kernel not implemented"
  else
    err <- reb_integrator_whfast_init ;;
    if negb (err =? 0) then
      ret tt
    else
      (* Only recalculate Jacobi coordinates if needed *)
      sm <- gets (fun r => safe_mode (ri_wkm r)) ;;
      rc <- gets (fun r => recalculate_coordinates_this_timestep (ri_whfast r)) ;;
      (if negb (sm =? 0) || negb (rc =? 0) then
         reb_integrator_whfast_from_inertial ;;
         modify (set_recalculate_coordinates_this_timestep 0)
       else ret tt) ;;
      sync <- gets (fun r => is_synchronized (ri_wkm r)) ;;
      (if negb (sync =? 0) then
         (if negb (corrector =? 0) then
            reb_whfast_apply_corrector 1 11 reb_wkm_corrector_Z ;;
            (if 2 <=? corrector then
               d <- gets dt ;; reb_wkm_apply_corrector2 d
             else ret tt)
          else ret tt) ;;
         (if kernel =? 0 then
            d <- gets dt ;; reb_whfast_kepler_step (5 / 8 * d)%float ;;
            d <- gets dt ;; reb_whfast_com_step (5 / 8 * d)%float
          else if kernel =? 1 then
            d <- gets dt ;; reb_whfast_kepler_step (1 / 2 * d)%float ;;
            d <- gets dt ;; reb_whfast_com_step (1 / 2 * d)%float
          else ret tt)
       else
         d <- gets dt ;; reb_whfast_kepler_step d ;;
         d <- gets dt ;; reb_whfast_com_step d) ;;
      reb_integrator_whfast_to_inertial.

(** lines 144-179 *)
Definition reb_integrator_wkm_synchronize : M unit :=
  c <- gets (fun r => corrector (ri_wkm r)) ;;
  let corrector := Z.rem c 10 in
  let kernel := Z.quot c 10 in
  sync <- gets (fun r => is_synchronized (ri_wkm r)) ;;
  if sync =? 0 then
    N0 <- gets N ;;
    modify (set_gravity_ignore_terms 1) ;;
    keep <- gets (fun r => keep_unsynchronized (ri_whfast r)) ;;
    sync_pj <-
      (if negb (keep =? 0) then
         n <- gets N ;;
         pj <- gets (fun r => deref (p_jh (ri_whfast r))) ;;
         ret (memcpy (malloc n) pj n)
       else ret []) ;;
    (if kernel =? 0 then
       d <- gets dt ;; reb_whfast_kepler_step (3 / 8 * d)%float ;;
       d <- gets dt ;; reb_whfast_com_step (3 / 8 * d)%float
     else if kernel =? 1 then
       d <- gets dt ;; reb_whfast_kepler_step (1 / 2 * d)%float ;;
       d <- gets dt ;; reb_whfast_com_step (1 / 2 * d)%float
     else ret tt) ;;
    (if negb (corrector =? 0) then
       reb_whfast_apply_corrector (-1) 11 reb_wkm_corrector_Z ;;
       (if 2 <=? corrector then
          d <- gets dt ;; reb_wkm_apply_corrector2 (- d)%float
        else ret tt)
     else ret tt) ;;
    reb_transformations_jacobi_to_inertial_posvel N0 ;;
    keep <- gets (fun r => keep_unsynchronized (ri_whfast r)) ;;
    if negb (keep =? 0) then
      n <- gets N ;;
      modify (fun r =>
        set_p_jh (store (p_jh (ri_whfast r))
                    (memcpy (deref (p_jh (ri_whfast r))) sync_pj n)) r)
    else
      modify (set_is_synchronized 1)
  else ret tt.

(** lines 257-272: one iteration [i] of the loop
    [for (unsigned int i=1;i<N;i++)], on the running mass [eta], the
    Coordinate Buffer [p_j] and the Scratch Buffer [temp_pj]. *)
Definition wkm_lazy_iteration (dt G : float)
  (st : float * list reb_particle * list reb_particle) (i : nat)
  : float * list reb_particle * list reb_particle :=
  let '(eta, p_j, temp_pj) := st in
  let pji := p_j_get p_j i in
  let eta := (eta + m pji)%float in
  let prefac1 := (dt * dt / 12)%float in
  let temp_pj :=
    if (1 <? i)%nat then
      let rj2i := (1 / (x pji * x pji + y pji * y pji + z pji * z pji))%float in
      let rji := PrimFloat.sqrt rj2i in
      let rj3iM := (rji * rj2i * G * eta)%float in
      p_j_upd i
        (fun q => set_acc (ax q + rj3iM * x q) (ay q + rj3iM * y q)
                    (az q + rj3iM * z q) q)%float
        temp_pj
    else temp_pj in
  let ti := p_j_get temp_pj i in
  let p_j :=
    p_j_upd i
      (fun q => set_pos (x q + prefac1 * ax ti) (y q + prefac1 * ay ti)
                  (z q + prefac1 * az ti) q)%float
      p_j in
  (eta, p_j, temp_pj).

(** The indices [1 <= i < n] visited by [for (unsigned int i=1;i<n;i++)]
    (for [0 <= n]; a negative [int n] converts to a huge unsigned bound and
    the C loop runs off the arrays). *)
Definition loop_indices (n : Z) : list nat := seq 1 (Z.to_nat n - 1).

(** lines 256-272 *)
Definition wkm_lazy_correction (dt G eta0 : float) (n : Z)
  (p_j temp_pj : list reb_particle) : float * list reb_particle * list reb_particle :=
  fold_left (wkm_lazy_iteration dt G) (loop_indices n) (eta0, p_j, temp_pj).

(** lines 279-284 *)
Definition wkm_lazy_reset (n : Z) (p_j temp_pj : list reb_particle)
  : list reb_particle :=
  fold_left
    (fun p_j i =>
       let ti := p_j_get temp_pj i in
       p_j_upd i (set_pos (x ti) (y ti) (z ti)) p_j)
    (loop_indices n) p_j.

(** lines 181-294 *)
Definition reb_integrator_wkm_part2 : M unit :=
  c <- gets (fun r => corrector (ri_wkm r)) ;;
  let kernel := Z.quot c 10 in
  N0 <- gets N ;;
  pjh <- gets (fun r => p_jh (ri_whfast r)) ;;
  match pjh with
  | None =>
      (* Non recoverable error occured earlier. *)
      ret tt
  | Some _ =>
      (if kernel =? 0 then
         (* -1/6 B *)
         d <- gets dt ;; reb_whfast_interaction_step (-1 / 6 * d)%float ;;
         (* -1/4 A *)
         d <- gets dt ;; reb_whfast_kepler_step (-1 / 4 * d)%float ;;
         d <- gets dt ;; reb_whfast_com_step (-1 / 4 * d)%float ;;
         (* 1/6 B *)
         reb_transformations_jacobi_to_inertial_pos N0 ;;
         reb_update_acceleration ;;
         d <- gets dt ;; reb_whfast_interaction_step (1 / 6 * d)%float ;;
         (* 1/8 A *)
         d <- gets dt ;; reb_whfast_kepler_step (1 / 8 * d)%float ;;
         d <- gets dt ;; reb_whfast_com_step (1 / 8 * d)%float ;;
         (* B *)
         reb_transformations_jacobi_to_inertial_pos N0 ;;
         reb_update_acceleration ;;
         d <- gets dt ;; reb_whfast_interaction_step d ;;
         (* -1/8 A *)
         d <- gets dt ;; reb_whfast_kepler_step (-1 / 8 * d)%float ;;
         d <- gets dt ;; reb_whfast_com_step (-1 / 8 * d)%float ;;
         (* -1/6 B *)
         reb_transformations_jacobi_to_inertial_pos N0 ;;
         reb_update_acceleration ;;
         d <- gets dt ;; reb_whfast_interaction_step (-1 / 6 * d)%float ;;
         (* 1/4 A *)
         d <- gets dt ;; reb_whfast_kepler_step (1 / 4 * d)%float ;;
         d <- gets dt ;; reb_whfast_com_step (1 / 4 * d)%float ;;
         (* 1/6 B *)
         reb_transformations_jacobi_to_inertial_pos N0 ;;
         reb_update_acceleration ;;
         d <- gets dt ;; reb_whfast_interaction_step (1 / 6 * d)%float
       else if kernel =? 1 then
         (* lazy implementers method *)
         d <- gets dt ;;
         N1 <- gets N ;;
         aN <- gets (fun r => allocated_N (ri_wkm r)) ;;
         (if negb (aN =? N1) then
            modify (set_allocated_N N1) ;;
            modify (fun r => set_temp_pj (Some (realloc (temp_pj (ri_wkm r)) N1)) r)
          else ret tt) ;;
         g <- gets G ;;
         (* Calculate normal kick *)
         reb_transformations_inertial_to_jacobi_acc N1 ;;
         (* make copy of normal kick, also stores original positions *)
         n <- gets N ;;
         modify (fun r =>
           set_temp_pj
             (store (temp_pj (ri_wkm r))
                (memcpy (deref (temp_pj (ri_wkm r))) (deref (p_jh (ri_whfast r))) n)) r) ;;
         (* WHT Eq 10.6 *)
         modify (fun r =>
           let eta := m (p_j_get (particles r) 0) in
           let '(_, p_j, temp_pj') :=
             wkm_lazy_correction d g eta N1
               (deref (p_jh (ri_whfast r))) (deref (temp_pj (ri_wkm r))) in
           set_p_jh (store (p_jh (ri_whfast r)) p_j)
             (set_temp_pj (store (temp_pj (ri_wkm r)) temp_pj') r)) ;;
         (* recalculate kick *)
         reb_transformations_jacobi_to_inertial_pos N1 ;;
         reb_update_acceleration ;;
         reb_whfast_interaction_step d ;;
         (* reset positions *)
         modify (fun r =>
           set_p_jh
             (store (p_jh (ri_whfast r))
                (wkm_lazy_reset N1 (deref (p_jh (ri_whfast r)))
                   (deref (temp_pj (ri_wkm r))))) r)
       else ret tt) ;;
      modify (set_is_synchronized 0) ;;
      sm <- gets (fun r => safe_mode (ri_wkm r)) ;;
      (if negb (sm =? 0) then reb_integrator_wkm_synchronize else ret tt) ;;
      modify (fun r => set_t (t r + dt r)%float r) ;;
      modify (fun r => set_dt_last_done (dt r) r)
  end.

End Wkm.

(** ** What the external routines may touch

    The drift, kick and force routines work on the particle array and on
    the Coordinate Buffer; they leave the rest of the simulation (times,
    particle count, flags, the whole WKM configuration with its Scratch
    Buffer) alone, and they neither free nor resize the Coordinate Buffer.
    The WHFast set-up routines may allocate the Coordinate Buffer and set
    the recalculation flag.  [reb_error] only records its message. *)

Definition control (r : reb_simulation) :=
  (t r, dt r, dt_last_done r, G r, N r, var_config_N r, gravity_ignore_terms r,
   coordinates (ri_whfast r), keep_unsynchronized (ri_whfast r), ri_wkm r).

Definition buffer_shape (r : reb_simulation) : option nat :=
  option_map (@List.length reb_particle) (p_jh (ri_whfast r)).

Class ExternalOk (E : External) : Prop := {
  kepler_step_control : forall a r, control (ext_kepler_step a r) = control r;
  kepler_step_shape : forall a r, buffer_shape (ext_kepler_step a r) = buffer_shape r;
  com_step_control : forall a r, control (ext_com_step a r) = control r;
  com_step_shape : forall a r, buffer_shape (ext_com_step a r) = buffer_shape r;
  interaction_step_control : forall b r, control (ext_interaction_step b r) = control r;
  interaction_step_shape :
    forall b r, buffer_shape (ext_interaction_step b r) = buffer_shape r;
  update_acceleration_control : forall r, control (ext_update_acceleration r) = control r;
  update_acceleration_shape :
    forall r, buffer_shape (ext_update_acceleration r) = buffer_shape r;
  inertial_to_jacobi_acc_length :
    forall ps pj pm n,
      List.length (ext_inertial_to_jacobi_acc ps pj pm n) = List.length pj;
  whfast_init_control : forall r, control (snd (ext_whfast_init r)) = control r;
  whfast_from_inertial_control :
    forall r, control (ext_whfast_from_inertial r) = control r;
  whfast_to_inertial_control :
    forall r, control (ext_whfast_to_inertial r) = control r;
  error_only_messages :
    forall msg r, ext_error msg r = set_messages (messages (ext_error msg r)) r
}.

(** The calls that keep [control] and the shape of the Coordinate Buffer. *)
Definition plain (c : call) : bool :=
  match c with
  | call_kepler_step _ | call_com_step _ | call_interaction_step _
  | call_update_acceleration
  | call_jacobi_to_inertial_pos _ | call_jacobi_to_inertial_posvel _
  | call_inertial_to_jacobi_acc _ => true
  | _ => false
  end.

(** Running a list of calls one after the other. *)
Definition perform_all {E : External} (cs : list call) : M unit := for_each cs perform.

Definition exec_all {E : External} (cs : list call) (r : reb_simulation)
  : reb_simulation :=
  fold_left (fun r c => exec c r) cs r.

(** [c] keeps [control] and the shape of the Coordinate Buffer. *)
Definition framed {A : Type} (c : M A) : Prop :=
  forall r, control (state_of (c r)) = control r /\
            buffer_shape (state_of (c r)) = buffer_shape r.

(** ** A small instance of the external routines

    Free drift, a kick from the inertial accelerations, a harmonic force
    and component-wise copies for the transformations: enough to run the
    sequencer on concrete simulations. *)
Module Toy.

Fixpoint overlay (f : reb_particle -> reb_particle -> reb_particle)
  (l1 l2 : list reb_particle) : list reb_particle :=
  match l1, l2 with
  | p :: l1', q :: l2' => f p q :: overlay f l1' l2'
  | _, _ => l1
  end.

Definition drift1 (a : float) (p : reb_particle) : reb_particle :=
  set_pos (x p + a * vx p) (y p + a * vy p) (z p + a * vz p)%float p.

Definition kick1 (b : float) (p : reb_particle) : reb_particle :=
  mk_particle (x p) (y p) (z p)
    (vx p + b * ax p) (vy p + b * ay p) (vz p + b * az p)%float
    (ax p) (ay p) (az p) (m p).

Definition copy_pos (p q : reb_particle) : reb_particle := set_pos (x q) (y q) (z q) p.
Definition copy_posvel (p q : reb_particle) : reb_particle :=
  mk_particle (x q) (y q) (z q) (vx q) (vy q) (vz q) (ax p) (ay p) (az p) (m p).
Definition copy_acc (p q : reb_particle) : reb_particle := set_acc (ax q) (ay q) (az q) p.

Definition on_buffer (f : list reb_particle -> list reb_particle) (r : reb_simulation)
  : reb_simulation :=
  set_p_jh (option_map f (p_jh (ri_whfast r))) r.

Definition kepler_step (a : float) : reb_simulation -> reb_simulation :=
  on_buffer (fun l => match l with [] => [] | p :: l' => p :: map (drift1 a) l' end).

Definition com_step (a : float) : reb_simulation -> reb_simulation :=
  on_buffer (fun l => match l with [] => [] | p :: l' => drift1 a p :: l' end).

Definition interaction_step (b : float) (r : reb_simulation) : reb_simulation :=
  on_buffer (fun l => map (kick1 b) (overlay copy_acc l (particles r))) r.

Definition update_acceleration (r : reb_simulation) : reb_simulation :=
  set_particles (map (fun p => set_acc (- x p) (- y p) (- z p)%float p) (particles r)) r.

Definition whfast_init (r : reb_simulation) : Z * reb_simulation :=
  match p_jh (ri_whfast r) with
  | Some _ => (0, r)
  | None =>
      (0, set_recalculate_coordinates_this_timestep 1 (set_p_jh (Some (malloc (N r))) r))
  end.

Definition corrector_coefficients (inv : float) (order : Z) (d : float)
  : list (float * float) :=
  if order =? 11 then
    [((-0.5 * d)%float, (- inv * 0.25 * d)%float);
     ((0.5 * d)%float, (- inv * -0.25 * d)%float)]
  else [].

#[export] Instance external : External := {
  ext_kepler_step := kepler_step;
  ext_com_step := com_step;
  ext_interaction_step := interaction_step;
  ext_update_acceleration := update_acceleration;
  ext_jacobi_to_inertial_pos := fun ps pj _ _ => overlay copy_pos ps pj;
  ext_jacobi_to_inertial_posvel := fun ps pj _ _ => overlay copy_posvel ps pj;
  ext_inertial_to_jacobi_acc := fun ps pj _ _ => overlay copy_acc pj ps;
  ext_whfast_init := whfast_init;
  ext_whfast_from_inertial :=
    fun r => on_buffer (fun l => overlay copy_posvel l (particles r)) r;
  ext_whfast_to_inertial :=
    fun r => set_particles (overlay copy_posvel (particles r) (deref (p_jh (ri_whfast r)))) r;
  ext_error := fun msg r => set_messages (messages r ++ [msg]) r;
  ext_corrector_coefficients := corrector_coefficients
}.

End Toy.

(** ** The step sequences, as the specification words them *)

Section Stages.

Context {E : External}.

(** A drift by [a]: the orbital drift and the centre-of-mass drift of the
    same coefficient. *)
Definition drift (a : float) : list call := [call_kepler_step a; call_com_step a].

(** A kick by [b] with the accelerations at hand. *)
Definition kick (b : float) : list call := [call_interaction_step b].

(** Reposition and reforce: inertial positions recomputed from the
    Coordinate Buffer ([n] particles), accelerations re-evaluated. *)
Definition reposition_reforce (n : Z) : list call :=
  [call_jacobi_to_inertial_pos n; call_update_acceleration].

(** Section 4.1: the Corrector Kernel Z. *)
Definition corrector_Z_stages (n : Z) (a b : float) : list call :=
  [call_kepler_step a] ++ reposition_reforce n ++ kick (- b)%float ++
  [call_kepler_step (-2 * a)%float] ++ reposition_reforce n ++ kick b ++
  [call_kepler_step a].

(** Section 4.6: the composition kernel, nine stages in units of [d]. *)
Definition composition_kernel_stages (n : Z) (d : float) : list call :=
  kick (-1 / 6 * d)%float ++
  drift (-1 / 4 * d)%float ++ reposition_reforce n ++ kick (1 / 6 * d)%float ++
  drift (1 / 8 * d)%float ++ reposition_reforce n ++ kick d ++
  drift (-1 / 8 * d)%float ++ reposition_reforce n ++ kick (-1 / 6 * d)%float ++
  drift (1 / 4 * d)%float ++ reposition_reforce n ++ kick (1 / 6 * d)%float.

(** Section 4.6, "after either kernel": mark the state unsynchronized,
    synchronize at once under safe mode, advance the time by [dt] and
    record [dt] as the last completed step. *)
Definition finish_step : M unit :=
  modify (set_is_synchronized 0) ;;
  sm <- gets (fun r => safe_mode (ri_wkm r)) ;;
  (if negb (sm =? 0) then reb_integrator_wkm_synchronize else ret tt) ;;
  modify (fun r => set_t (t r + dt r)%float r) ;;
  modify (fun r => set_dt_last_done (dt r) r).

(** Section 4.2: the composition builders C, Y and U. *)
Definition C_stages (n : Z) (a b : float) : list call :=
  drift a ++ reposition_reforce n ++ kick b ++ drift (- a)%float.

Definition Y_stages (n : Z) (a b : float) : list call :=
  C_stages n a b ++ C_stages n (- a)%float (- b)%float.

Definition U_stages (n : Z) (a b : float) : list call :=
  drift a ++ Y_stages n a b ++ Y_stages n a (- b)%float ++ drift (- a)%float.

(** Section 4.3, first layer: the composition of Z that
    [reb_whfast_apply_corrector] makes for the sign [inv], order 11 and
    time step [d]. *)
Definition Z_composition_stages (n : Z) (inv d : float) : list call :=
  flat_map (fun ab => corrector_Z_stages n (fst ab) (snd ab))
    (ext_corrector_coefficients inv 11 d).

(** Section 4.3, second layer: U(a,b) then U(-a,b), for the signed time
    step [d]. *)
Definition second_layer_stages (n : Z) (d : float) : list call :=
  let a := (0.5 * d)%float in
  let b := (0.03486083443891981449909050107438281205803 * d)%float in
  U_stages n a b ++ U_stages n (- a)%float b.

(** Section 4.3: the Corrector Driver for the corrector digit [c]; before
    the step the sign is [+1] and the second layer gets [dt], after the step
    the sign is [-1] and the second layer gets [-dt]. *)
Definition corrector_driver_stages (after_step : bool) (c n : Z) (d : float)
  : list call :=
  if c =? 0 then []
  else
    Z_composition_stages n (if after_step then (-1)%float else 1%float) d ++
    (if 2 <=? c then second_layer_stages n (if after_step then (- d)%float else d)
     else []).

(** Sections 4.4 and 4.5: the leading and the trailing drift of a kernel,
    in units of [dt]. *)
Definition leading_drift (kernel : Z) (d : float) : list call :=
  if kernel =? 0 then drift (5 / 8 * d)%float
  else if kernel =? 1 then drift (1 / 2 * d)%float
  else [].

Definition trailing_drift (kernel : Z) (d : float) : list call :=
  if kernel =? 0 then drift (3 / 8 * d)%float
  else if kernel =? 1 then drift (1 / 2 * d)%float
  else [].

(** Section 4.4: the set-up of a step that passed the configuration
    checks: the force evaluator is told to ignore terms, WHFast is
    initialised, and the Coordinate Buffer is recomputed from the inertial
    state when safe mode or the recalculation flag asks for it (the flag is
    then cleared). *)
Definition prepare_step : M unit :=
  modify (set_gravity_ignore_terms 1) ;;
  _ <- reb_integrator_whfast_init ;;
  sm <- gets (fun r => safe_mode (ri_wkm r)) ;;
  rc <- gets (fun r => recalculate_coordinates_this_timestep (ri_whfast r)) ;;
  if negb (sm =? 0) || negb (rc =? 0) then
    reb_integrator_whfast_from_inertial ;;
    modify (set_recalculate_coordinates_this_timestep 0)
  else ret tt.

(** Section 7: the configuration error that [step_part1] reports for [r],
    if any. *)
Definition rejection_message (r : reb_simulation) : option string :=
  if negb (is_jacobi (coordinates (ri_whfast r))) then
    if 0 <? var_config_N r then
      Some "Variational particles are not supported in the WKM integrator."%string
    else
      Some "WKM integrator requires ri_whfast.coordinates to be set to Jacobi coordinates."%string
  else if 1 <? Z.quot (corrector (ri_wkm r)) 10 then
    Some "WKM Kernel not implemented"%string
  else None.

(** Section 4.6, lazy-implementer kernel: the running mass after index [i],
    the mass of particle 0 plus the Jacobi masses of particles [1..i], added
    in that order. *)
Definition eta_upto (m0 : float) (p_j : list reb_particle) (i : nat) : float :=
  fold_left (fun e k => (e + m (p_j_get p_j k))%float) (seq 1 i) m0.

(** [G*eta/r^3] for the Jacobi position of [pji], as the code evaluates it:
    [1/r^2], its square root, and the product. *)
Definition indirect_factor (G eta : float) (pji : reb_particle) : float :=
  let rj2i := (1 / (x pji * x pji + y pji * y pji + z pji * z pji))%float in
  (PrimFloat.sqrt rj2i * rj2i * G * eta)%float.

(** The snapshot entry [q] of index [i] with the indirect term added to its
    acceleration (indices above 1 only). *)
Definition corrected (G m0 : float) (p_j : list reb_particle) (i : nat)
  (q : reb_particle) : reb_particle :=
  if (1 <? i)%nat then
    let f := indirect_factor G (eta_upto m0 p_j i) (p_j_get p_j i) in
    set_acc (ax q + f * x q) (ay q + f * y q) (az q + f * z q)%float q
  else q.

(** The Jacobi particle [p] displaced by [d^2/12] times the acceleration of
    the corrected snapshot entry [c]. *)
Definition displaced (d : float) (c p : reb_particle) : reb_particle :=
  set_pos (x p + d * d / 12 * ax c) (y p + d * d / 12 * ay c)
          (z p + d * d / 12 * az c)%float p.

(** *** The phases of the lazy-implementer kernel (lines 234-284)

    The states [step_part2] goes through with kernel 1, from the state [r]
    it is entered in. *)

(** lines 240-253: the Scratch Buffer reallocated if the particle count
    changed, the accelerations converted to the Jacobi frame, the
    Coordinate Buffer copied into the Scratch Buffer. *)
Definition lazy_snapshot_state (r : reb_simulation) : reb_simulation :=
  let n := N r in
  let r0 :=
    if allocated_N (ri_wkm r) =? n then r
    else set_temp_pj (Some (realloc (temp_pj (ri_wkm r)) n)) (set_allocated_N n r) in
  let r1 := exec (call_inertial_to_jacobi_acc n) r0 in
  set_temp_pj
    (store (temp_pj (ri_wkm r1))
       (memcpy (deref (temp_pj (ri_wkm r1))) (deref (p_jh (ri_whfast r1))) n)) r1.

(** lines 256-272: the correction loop run on the two buffers. *)
Definition lazy_displaced_state (r : reb_simulation) : reb_simulation :=
  let r1 := lazy_snapshot_state r in
  let '(_, p_j, temp_pj') :=
    wkm_lazy_correction (dt r) (G r) (m (p_j_get (particles r1) 0)) (N r)
      (deref (p_jh (ri_whfast r1))) (deref (temp_pj (ri_wkm r1))) in
  set_p_jh (store (p_jh (ri_whfast r1)) p_j)
    (set_temp_pj (store (temp_pj (ri_wkm r1)) temp_pj') r1).

(** lines 275-277: inertial positions, forces, and the kick over [dt]. *)
Definition lazy_kicked_state (r : reb_simulation) : reb_simulation :=
  exec_all (reposition_reforce (N r) ++ kick (dt r)) (lazy_displaced_state r).

(** lines 279-284: the positions reset from the Scratch Buffer. *)
Definition lazy_restored_state (r : reb_simulation) : reb_simulation :=
  let r3 := lazy_kicked_state r in
  set_p_jh
    (store (p_jh (ri_whfast r3))
       (wkm_lazy_reset (N r) (deref (p_jh (ri_whfast r3)))
          (deref (temp_pj (ri_wkm r3))))) r3.

(** The Scratch Buffer invariant of Section 3: when the recorded size is
    the particle count, the buffer is allocated with that many entries. *)
Definition scratch_ready (r : reb_simulation) : Prop :=
  allocated_N (ri_wkm r) = N r ->
  exists l, temp_pj (ri_wkm r) = Some l /\ Z.of_nat (List.length l) = N r.

End Stages.

(** ** Concrete simulations *)

Module Examples.

Definition sun : reb_particle := mk_particle 0 0 0 0 0 0 0 0 0 1.
Definition planet : reb_particle := mk_particle 1 0 0 0 1 0 0 0 0 0.001.
Definition moon : reb_particle := mk_particle 2 0 0.5 0 0.5 0 0 0 0 0.0005.

(** Three bodies with the Coordinate Buffer allocated, [dt = 0.01], the
    force-evaluator flag still 0 and an empty Scratch Buffer; the
    coordinate scheme, the keep-unsynchronized policy and the WKM
    configuration are the arguments. *)
Definition make (coords : REB_WHFAST_COORDINATES) (keep c sm sync : Z)
  : reb_simulation :=
  mk_sim 0 0.01 0 1 3 0 0 [sun; planet; moon]
    (mk_whfast coords 0 keep (Some [sun; planet; moon]))
    (mk_wkm c sm sync None 0)
    [].

(** Jacobi coordinates, unsynchronized, not in safe mode. *)
Definition sim (c : Z) : reb_simulation :=
  make REB_WHFAST_COORDINATES_JACOBI 0 c 0 0.

(** The same, synchronized. *)
Definition sim_synchronized (c : Z) : reb_simulation :=
  make REB_WHFAST_COORDINATES_JACOBI 0 c 0 1.

(** Unsynchronized under the keep-unsynchronized policy. *)
Definition sim_keep (c : Z) : reb_simulation :=
  make REB_WHFAST_COORDINATES_JACOBI 1 c 0 0.

(** Democratic heliocentric coordinates: rejected by [step_part1]. *)
Definition sim_heliocentric : reb_simulation :=
  make REB_WHFAST_COORDINATES_DEMOCRATICHELIOCENTRIC 0 1 0 1.

End Examples.

(** The outcome [o] of the rest of a run, after the calls [l]. *)
Definition after_calls {A : Type} (l : list call) (o : A * reb_simulation * list call)
  : A * reb_simulation * list call :=
  (fst (fst o), snd (fst o), l ++ snd o).

(** The kicks among the calls. *)
Definition is_kick (c : call) : bool :=
  match c with call_interaction_step _ => true | _ => false end.



(** The force evaluations among the calls. *)
Definition is_force (c : call) : bool :=
  match c with call_update_acceleration => true | _ => false end.

(** The orbital and centre-of-mass drifts among the calls. *)
Definition is_drift (c : call) : bool :=
  match c with call_kepler_step _ | call_com_step _ => true | _ => false end.

(** The fields that only the reset writes: the time step, the constants,
    the particle counts, the coordinate scheme, the keep-unsynchronized
    policy and the two configuration words of the integrator. *)
Definition configuration (r : reb_simulation) :=
  (dt r, G r, N r, var_config_N r, coordinates (ri_whfast r),
   keep_unsynchronized (ri_whfast r), corrector (ri_wkm r), safe_mode (ri_wkm r)).

(** The Scratch Buffer and its recorded size. *)
Definition scratch (r : reb_simulation) :=
  (temp_pj (ri_wkm r), allocated_N (ri_wkm r)).

(** ** The reset (lines 296-307)

    [reb_integrator_whfast_reset] belongs to integrator_whfast.c; it is the
    one routine of this class. *)
Class ExternalReset : Type := {
  (* reb_integrator_whfast_reset(r) *)
  ext_whfast_reset : reb_simulation -> reb_simulation
}.

Definition set_corrector (v : Z) (r : reb_simulation) : reb_simulation :=
  let k := ri_wkm r in
  set_ri_wkm (mk_wkm v (safe_mode k) (is_synchronized k) (temp_pj k) (allocated_N k)) r.

Definition set_safe_mode (v : Z) (r : reb_simulation) : reb_simulation :=
  let k := ri_wkm r in
  set_ri_wkm (mk_wkm (corrector k) v (is_synchronized k) (temp_pj k) (allocated_N k)) r.

(** lines 296-307; [free] leaves nothing to read, the pointer is then set
    to NULL. *)
Definition reb_integrator_wkm_reset {R : ExternalReset} (r : reb_simulation)
  : reb_simulation :=
  let r := set_corrector 1 r in
  let r := set_safe_mode 1 r in
  let r := set_is_synchronized 1 r in
  let r := ext_whfast_reset r in
  let r :=
    match temp_pj (ri_wkm r) with
    | Some _ => set_temp_pj None r
    | None => r
    end in
  set_allocated_N 0 r.

(** A reset of WHFast for the concrete runs: the Coordinate Buffer is
    released and the recalculation flag raised. *)
Definition toy_reset : ExternalReset :=
  {| ext_whfast_reset :=
       fun r => set_recalculate_coordinates_this_timestep 1 (set_p_jh None r) |}.

(** The concrete routines again, with a WHFast initialisation that
    reports a non-recoverable error and touches nothing. *)
Definition toy_failing_init : External :=
  {| ext_kepler_step := Toy.kepler_step;
     ext_com_step := Toy.com_step;
     ext_interaction_step := Toy.interaction_step;
     ext_update_acceleration := Toy.update_acceleration;
     ext_jacobi_to_inertial_pos := fun ps pj _ _ => Toy.overlay Toy.copy_pos ps pj;
     ext_jacobi_to_inertial_posvel := fun ps pj _ _ => Toy.overlay Toy.copy_posvel ps pj;
     ext_inertial_to_jacobi_acc := fun ps pj _ _ => Toy.overlay Toy.copy_acc pj ps;
     ext_whfast_init := fun r => (1, r);
     ext_whfast_from_inertial :=
       fun r => Toy.on_buffer (fun l => Toy.overlay Toy.copy_posvel l (particles r)) r;
     ext_whfast_to_inertial :=
       fun r =>
         set_particles
           (Toy.overlay Toy.copy_posvel (particles r) (deref (p_jh (ri_whfast r)))) r;
     ext_error := fun msg r => set_messages (messages r ++ [msg]) r;
     ext_corrector_coefficients := Toy.corrector_coefficients |}.

(** A single body, for the runs on the smallest system. *)
Definition one_body (c : Z) : reb_simulation :=
  mk_sim 0 0.01 0 1 1 0 0 [Examples.sun]
    (mk_whfast REB_WHFAST_COORDINATES_JACOBI 0 0 (Some [Examples.sun]))
    (mk_wkm c 0 0 None 0)
    [].

(** The error reports among the calls. *)
Definition is_error (c : call) : bool :=
  match c with call_error _ => true | _ => false end.

(** Jacobi coordinates with two variational particles configured, fresh
    from a reset (no Coordinate Buffer yet), lazy-implementer kernel. *)
Definition variational_sim : reb_simulation :=
  mk_sim 0 0.01 0 1 3 2 0 [Examples.sun; Examples.planet; Examples.moon]
    (mk_whfast REB_WHFAST_COORDINATES_JACOBI 0 0 None)
    (mk_wkm 11 1 1 None 0)
    [].

(** * Properties *)

(** ** Laws of the monad *)

Section Laws.

Context {E : External}.

Lemma after_calls_nil {A : Type} (o : A * reb_simulation * list call) :
  after_calls [] o = o.
Proof. destruct o as [[a r] l]. reflexivity. Qed.

Lemma after_calls_app {A : Type} (l1 l2 : list call) (o : A * reb_simulation * list call) :
  after_calls l1 (after_calls l2 o) = after_calls (l1 ++ l2) o.
Proof. unfold after_calls. cbn. now rewrite app_assoc. Qed.

Lemma bind_run {A B : Type} (c : M A) (k : A -> M B) r :
  bind c k r =
  after_calls (calls_of (c r)) (k (fst (fst (c r))) (state_of (c r))).
Proof.
  unfold bind, after_calls, calls_of, state_of.
  destruct (c r) as [[a r1] l1]. cbn.
  destruct (k a r1) as [[b r2] l2]. reflexivity.
Qed.

Lemma bind_ret {A B : Type} (a : A) (k : A -> M B) r : bind (ret a) k r = k a r.
Proof. rewrite bind_run. cbn. apply after_calls_nil. Qed.

Lemma bind_gets {A B : Type} (f : reb_simulation -> A) (k : A -> M B) r :
  bind (gets f) k r = k (f r) r.
Proof. rewrite bind_run. cbn. apply after_calls_nil. Qed.

Lemma bind_modify {B : Type} (f : reb_simulation -> reb_simulation) (k : unit -> M B) r :
  bind (modify f) k r = k tt (f r).
Proof. rewrite bind_run. cbn. apply after_calls_nil. Qed.

Lemma bind_perform {B : Type} (c : call) (k : unit -> M B) r :
  bind (perform c) k r = after_calls [c] (k tt (exec c r)).
Proof. rewrite bind_run. reflexivity. Qed.

Lemma bind_assoc {A B C : Type} (c : M A) (k : A -> M B) (k' : B -> M C) r :
  bind (bind c k) k' r = bind c (fun a => bind (k a) k') r.
Proof.
  unfold bind. destruct (c r) as [[a r1] l1].
  destruct (k a r1) as [[b r2] l2].
  destruct (k' b r2) as [[d r3] l3]. now rewrite app_assoc.
Qed.

Lemma perform_run (c : call) r : perform c r = after_calls [c] (tt, exec c r, []).
Proof. reflexivity. Qed.

Lemma perform_all_run (cs : list call) r :
  perform_all cs r = (tt, exec_all cs r, cs).
Proof.
  revert r. induction cs as [|c cs IH]; intro r; [reflexivity|].
  unfold perform_all in *. cbn [for_each]. rewrite bind_perform, IH. reflexivity.
Qed.

Lemma bind_perform_all {B : Type} (cs : list call) (k : unit -> M B) r :
  bind (perform_all cs) k r = after_calls cs (k tt (exec_all cs r)).
Proof. rewrite bind_run, perform_all_run. reflexivity. Qed.

Lemma exec_all_app (l1 l2 : list call) r :
  exec_all (l1 ++ l2) r = exec_all l2 (exec_all l1 r).
Proof. apply fold_left_app. Qed.

End Laws.

Ltac run_step :=
  rewrite ?bind_assoc;
  first [ rewrite bind_gets | rewrite bind_modify | rewrite bind_perform
        | rewrite bind_ret ];
  cbv beta.

Ltac unfold_calls :=
  unfold reb_whfast_kepler_step, reb_whfast_com_step, reb_whfast_interaction_step,
    reb_update_acceleration, reb_transformations_jacobi_to_inertial_pos,
    reb_transformations_jacobi_to_inertial_posvel,
    reb_transformations_inertial_to_jacobi_acc,
    reb_integrator_whfast_from_inertial, reb_integrator_whfast_to_inertial,
    reb_error.

(** ** Frame lemmas *)

Section Frame.

Context {E : External} {HE : ExternalOk E}.

Lemma control_fields r r' :
  control r' = control r ->
  t r' = t r /\ dt r' = dt r /\ dt_last_done r' = dt_last_done r /\ G r' = G r /\
  N r' = N r /\ var_config_N r' = var_config_N r /\
  gravity_ignore_terms r' = gravity_ignore_terms r /\
  coordinates (ri_whfast r') = coordinates (ri_whfast r) /\
  keep_unsynchronized (ri_whfast r') = keep_unsynchronized (ri_whfast r) /\
  ri_wkm r' = ri_wkm r.
Proof. unfold control. intro H. injection H. intros. repeat split; assumption. Qed.

Lemma exec_plain_control c r : plain c = true -> control (exec c r) = control r.
Proof.
  destruct c; cbn [plain exec]; intro H; try discriminate H;
    auto using kepler_step_control, com_step_control, interaction_step_control,
               update_acceleration_control.
Qed.

Lemma exec_plain_shape c r : plain c = true -> buffer_shape (exec c r) = buffer_shape r.
Proof.
  destruct c; cbn [plain exec]; intro H; try discriminate H;
    auto using kepler_step_shape, com_step_shape, interaction_step_shape,
               update_acceleration_shape.
  unfold buffer_shape. cbn. destruct (p_jh (ri_whfast r)); cbn; [|reflexivity].
  now rewrite inertial_to_jacobi_acc_length.
Qed.

Lemma exec_all_plain_control cs r :
  forallb plain cs = true -> control (exec_all cs r) = control r.
Proof.
  revert r. induction cs as [|c cs IH]; intros r H; [reflexivity|].
  cbn in H. apply andb_prop in H as [Hc Hcs]. cbn.
  change (control (exec_all cs (exec c r)) = control r).
  rewrite IH by assumption. now apply exec_plain_control.
Qed.

Lemma exec_all_plain_shape cs r :
  forallb plain cs = true -> buffer_shape (exec_all cs r) = buffer_shape r.
Proof.
  revert r. induction cs as [|c cs IH]; intros r H; [reflexivity|].
  cbn in H. apply andb_prop in H as [Hc Hcs]. cbn.
  change (buffer_shape (exec_all cs (exec c r)) = buffer_shape r).
  rewrite IH by assumption. now apply exec_plain_shape.
Qed.

Lemma dt_exec c r : plain c = true -> dt (exec c r) = dt r.
Proof. intro H. now apply (control_fields _ _ (exec_plain_control c r H)). Qed.

Lemma N_exec c r : plain c = true -> N (exec c r) = N r.
Proof. intro H. now apply (control_fields _ _ (exec_plain_control c r H)). Qed.

Lemma ri_wkm_exec c r : plain c = true -> ri_wkm (exec c r) = ri_wkm r.
Proof. intro H. now apply (control_fields _ _ (exec_plain_control c r H)). Qed.

Lemma keep_unsynchronized_exec c r :
  plain c = true ->
  keep_unsynchronized (ri_whfast (exec c r)) = keep_unsynchronized (ri_whfast r).
Proof. intro H. now apply (control_fields _ _ (exec_plain_control c r H)). Qed.

(** *** Computations that keep [control] and the buffer shape *)

Lemma framed_ret {A : Type} (a : A) : framed (ret a).
Proof. intro r. split; reflexivity. Qed.

Lemma framed_gets {A : Type} (f : reb_simulation -> A) : framed (gets f).
Proof. intro r. split; reflexivity. Qed.

Lemma framed_perform c : plain c = true -> framed (perform c).
Proof.
  intros H r. split; [now apply exec_plain_control | now apply exec_plain_shape].
Qed.

Lemma framed_bind {A B : Type} (c : M A) (k : A -> M B) :
  framed c -> (forall a, framed (k a)) -> framed (bind c k).
Proof.
  intros Hc Hk r. rewrite bind_run. unfold after_calls, state_of. cbn.
  destruct (Hc r) as [H1 H2].
  destruct (Hk (fst (fst (c r))) (state_of (c r))) as [H3 H4].
  unfold state_of in *. split; congruence.
Qed.

Lemma framed_if {A : Type} (b : bool) (c1 c2 : M A) :
  framed c1 -> framed c2 -> framed (if b then c1 else c2).
Proof. now destruct b. Qed.

Lemma framed_for_each {A : Type} (l : list A) (body : A -> M unit) :
  (forall a, framed (body a)) -> framed (for_each l body).
Proof.
  intro H. induction l as [|a l IH]; cbn [for_each];
    [apply framed_ret | apply framed_bind; auto].
Qed.

Lemma framed_perform_all cs : forallb plain cs = true -> framed (perform_all cs).
Proof.
  intros H r. rewrite perform_all_run. unfold state_of. cbn.
  split; [now apply exec_all_plain_control | now apply exec_all_plain_shape].
Qed.

End Frame.

Ltac framed_step :=
  match goal with
  | |- forall _, framed _ => intro
  | |- framed (ret _) => apply framed_ret
  | |- framed (gets _) => apply framed_gets
  | |- framed (perform _) => apply framed_perform; reflexivity
  | |- framed (bind _ _) => apply framed_bind
  | |- framed (if _ then _ else _) => apply framed_if
  | |- framed (for_each _ _) => apply framed_for_each
  end.

Ltac framed := repeat framed_step.

(** ** The Corrector Kernel and the composition builders *)

Section Correctors.

Context {E : External}.

Lemma corrector_Z_run (a b : float) r :
  reb_wkm_corrector_Z a b r = perform_all (corrector_Z_stages (N r) a b) r.
Proof. rewrite perform_all_run. reflexivity. Qed.

Context {HE : ExternalOk E}.

Lemma framed_corrector_Z a b : framed (reb_wkm_corrector_Z a b).
Proof.
  intro r. rewrite corrector_Z_run. now apply framed_perform_all.
Qed.

Lemma framed_apply_C a b : framed (reb_wkm_apply_C a b).
Proof.
  unfold reb_wkm_apply_C, reb_whfast_kepler_step, reb_whfast_com_step,
    reb_transformations_jacobi_to_inertial_pos, reb_update_acceleration,
    reb_whfast_interaction_step.
  framed.
Qed.

Lemma framed_apply_Y a b : framed (reb_wkm_apply_Y a b).
Proof. unfold reb_wkm_apply_Y. framed; apply framed_apply_C. Qed.

Lemma framed_apply_U a b : framed (reb_wkm_apply_U a b).
Proof.
  unfold reb_wkm_apply_U, reb_whfast_kepler_step, reb_whfast_com_step.
  framed; apply framed_apply_Y.
Qed.

Lemma framed_apply_corrector2 d : framed (reb_wkm_apply_corrector2 d).
Proof. unfold reb_wkm_apply_corrector2. framed; apply framed_apply_U. Qed.

Lemma framed_apply_corrector inv order :
  framed (reb_whfast_apply_corrector inv order reb_wkm_corrector_Z).
Proof. unfold reb_whfast_apply_corrector. framed. apply framed_corrector_Z. Qed.

End Correctors.

(** ** The builders as call sequences *)

Section Runs.

Context {E : External} {HE : ExternalOk E}.

Lemma exec_control c r : control (exec c r) = control r.
Proof.
  destruct c; try (apply exec_plain_control; reflexivity); cbn [exec].
  - apply whfast_init_control.
  - apply whfast_from_inertial_control.
  - apply whfast_to_inertial_control.
  - rewrite error_only_messages. reflexivity.
Qed.

Lemma exec_all_control cs r : control (exec_all cs r) = control r.
Proof.
  revert r. induction cs as [|c cs IH]; intro r; [reflexivity|].
  change (control (exec_all cs (exec c r)) = control r).
  now rewrite IH, exec_control.
Qed.

Lemma N_exec_all cs r : N (exec_all cs r) = N r.
Proof. now apply (control_fields _ _ (exec_all_control cs r)). Qed.

Lemma dt_exec_all cs r : dt (exec_all cs r) = dt r.
Proof. now apply (control_fields _ _ (exec_all_control cs r)). Qed.

Lemma seq_run (c1 c2 : M unit) (l1 l2 : list call) r :
  c1 r = perform_all l1 r ->
  c2 (exec_all l1 r) = perform_all l2 (exec_all l1 r) ->
  bind c1 (fun _ => c2) r = perform_all (l1 ++ l2) r.
Proof.
  intros H1 H2. rewrite bind_run, H1, !perform_all_run.
  unfold state_of, calls_of, after_calls. cbn.
  rewrite H2, perform_all_run, exec_all_app. reflexivity.
Qed.

Lemma apply_C_run a b r :
  reb_wkm_apply_C a b r = perform_all (C_stages (N r) a b) r.
Proof.
  unfold reb_wkm_apply_C. unfold_calls. repeat run_step.
  rewrite perform_run, !N_exec by reflexivity.
  rewrite !after_calls_app, perform_all_run. reflexivity.
Qed.

Lemma apply_Y_run a b r :
  reb_wkm_apply_Y a b r = perform_all (Y_stages (N r) a b) r.
Proof.
  unfold reb_wkm_apply_Y. apply seq_run; [apply apply_C_run|].
  now rewrite apply_C_run, N_exec_all.
Qed.

Lemma apply_U_run a b r :
  reb_wkm_apply_U a b r = perform_all (U_stages (N r) a b) r.
Proof.
  unfold reb_wkm_apply_U, U_stages.
  apply (seq_run _ _ [call_kepler_step a] _ r); [reflexivity|].
  apply (seq_run _ _ [call_com_step a]); [reflexivity|].
  rewrite <- exec_all_app.
  apply seq_run; [now rewrite apply_Y_run, N_exec_all|].
  rewrite <- exec_all_app.
  apply seq_run; [now rewrite apply_Y_run, N_exec_all|].
  rewrite <- exec_all_app.
  apply (seq_run _ _ [call_kepler_step (- a)%float] [call_com_step (- a)%float]);
    reflexivity.
Qed.

Lemma apply_corrector2_run d r :
  reb_wkm_apply_corrector2 d r = perform_all (second_layer_stages (N r) d) r.
Proof.
  unfold reb_wkm_apply_corrector2, second_layer_stages. cbv zeta.
  apply seq_run; [apply apply_U_run|].
  now rewrite apply_U_run, N_exec_all.
Qed.

Lemma for_each_Z_run (l : list (float * float)) r :
  for_each l (fun ab => reb_wkm_corrector_Z (fst ab) (snd ab)) r =
  perform_all (flat_map (fun ab => corrector_Z_stages (N r) (fst ab) (snd ab)) l) r.
Proof.
  revert r. induction l as [|[a b] l IH]; intro r; [reflexivity|].
  cbn [for_each flat_map fst snd].
  apply seq_run; [apply corrector_Z_run|].
  now rewrite IH, N_exec_all.
Qed.

Lemma apply_corrector_run inv r :
  reb_whfast_apply_corrector inv 11 reb_wkm_corrector_Z r =
  perform_all (Z_composition_stages (N r) inv (dt r)) r.
Proof.
  unfold reb_whfast_apply_corrector. rewrite bind_gets. apply for_each_Z_run.
Qed.

(** lines 123-128 and 165-170: the Corrector Driver, before and after the
    step. *)
Lemma corrector_driver_before_run (c : Z) r :
  (if negb (c =? 0) then
     reb_whfast_apply_corrector 1 11 reb_wkm_corrector_Z ;;
     (if 2 <=? c then d <- gets dt ;; reb_wkm_apply_corrector2 d else ret tt)
   else ret tt)%wkm r =
  perform_all (corrector_driver_stages false c (N r) (dt r)) r.
Proof.
  unfold corrector_driver_stages. destruct (c =? 0); [reflexivity|]. cbn [negb].
  apply seq_run; [apply apply_corrector_run|].
  destruct (2 <=? c); [|reflexivity].
  now rewrite bind_gets, apply_corrector2_run, N_exec_all, dt_exec_all.
Qed.

Lemma corrector_driver_after_run (c : Z) r :
  (if negb (c =? 0) then
     reb_whfast_apply_corrector (-1) 11 reb_wkm_corrector_Z ;;
     (if 2 <=? c then d <- gets dt ;; reb_wkm_apply_corrector2 (- d)%float
      else ret tt)
   else ret tt)%wkm r =
  perform_all (corrector_driver_stages true c (N r) (dt r)) r.
Proof.
  unfold corrector_driver_stages. destruct (c =? 0); [reflexivity|]. cbn [negb].
  apply seq_run; [apply apply_corrector_run|].
  destruct (2 <=? c); [|reflexivity].
  now rewrite bind_gets, apply_corrector2_run, N_exec_all, dt_exec_all.
Qed.

Lemma bind_as_calls {B : Type} (c : M unit) (l : list call) (k : unit -> M B) r :
  c r = perform_all l r -> bind c k r = after_calls l (k tt (exec_all l r)).
Proof. intro H. rewrite bind_run, H, perform_all_run. reflexivity. Qed.

Lemma keep_unsynchronized_exec_all cs r :
  keep_unsynchronized (ri_whfast (exec_all cs r)) = keep_unsynchronized (ri_whfast r).
Proof. now apply (control_fields _ _ (exec_all_control cs r)). Qed.

Lemma ri_wkm_exec_all cs r : ri_wkm (exec_all cs r) = ri_wkm r.
Proof. now apply (control_fields _ _ (exec_all_control cs r)). Qed.

(** lines 129-135 *)
Lemma leading_drift_run (k : Z) r :
  (if k =? 0 then
     d <- gets dt ;; reb_whfast_kepler_step (5 / 8 * d)%float ;;
     d <- gets dt ;; reb_whfast_com_step (5 / 8 * d)%float
   else if k =? 1 then
     d <- gets dt ;; reb_whfast_kepler_step (1 / 2 * d)%float ;;
     d <- gets dt ;; reb_whfast_com_step (1 / 2 * d)%float
   else ret tt)%wkm r =
  perform_all (leading_drift k (dt r)) r.
Proof.
  unfold leading_drift. destruct (k =? 0); [|destruct (k =? 1)];
    unfold_calls; repeat run_step;
    rewrite ?perform_run, ?dt_exec, ?after_calls_app by reflexivity; reflexivity.
Qed.

(** lines 157-163 *)
Lemma trailing_drift_run (k : Z) r :
  (if k =? 0 then
     d <- gets dt ;; reb_whfast_kepler_step (3 / 8 * d)%float ;;
     d <- gets dt ;; reb_whfast_com_step (3 / 8 * d)%float
   else if k =? 1 then
     d <- gets dt ;; reb_whfast_kepler_step (1 / 2 * d)%float ;;
     d <- gets dt ;; reb_whfast_com_step (1 / 2 * d)%float
   else ret tt)%wkm r =
  perform_all (trailing_drift k (dt r)) r.
Proof.
  unfold trailing_drift. destruct (k =? 0); [|destruct (k =? 1)];
    unfold_calls; repeat run_step;
    rewrite ?perform_run, ?dt_exec, ?after_calls_app by reflexivity; reflexivity.
Qed.

(** lines 136-139 *)
Lemma full_drift_run r :
  (d <- gets dt ;; reb_whfast_kepler_step d ;;
   d <- gets dt ;; reb_whfast_com_step d)%wkm r =
  perform_all (drift (dt r)) r.
Proof.
  unfold_calls; repeat run_step.
  rewrite ?perform_run, ?dt_exec, ?after_calls_app by reflexivity; reflexivity.
Qed.

(** What [synchronize] does from an unsynchronized state: the calls it
    makes and the state it leaves. *)
Lemma synchronize_run r :
  is_synchronized (ri_wkm r) = 0 ->
  let c := Z.rem (corrector (ri_wkm r)) 10 in
  let k := Z.quot (corrector (ri_wkm r)) 10 in
  let n := N r in
  let stages :=
    trailing_drift k (dt r) ++ corrector_driver_stages true c n (dt r) ++
    [call_jacobi_to_inertial_posvel n] in
  let r1 := exec_all stages (set_gravity_ignore_terms 1 r) in
  reb_integrator_wkm_synchronize r =
  (tt,
   (if keep_unsynchronized (ri_whfast r) =? 0 then set_is_synchronized 1 r1
    else
      set_p_jh
        (store (p_jh (ri_whfast r1))
           (memcpy (deref (p_jh (ri_whfast r1)))
              (memcpy (malloc n) (deref (p_jh (ri_whfast r))) n) n)) r1),
   stages).
Proof.
  intros Hs. cbv zeta.
  unfold reb_integrator_wkm_synchronize.
  rewrite !bind_gets, Hs. cbn [Z.eqb].
  rewrite bind_gets, bind_modify, bind_gets.
  set (r0 := set_gravity_ignore_terms 1 r).
  change (keep_unsynchronized (ri_whfast r0)) with (keep_unsynchronized (ri_whfast r)).
  assert (Hk0 : keep_unsynchronized (ri_whfast r0) = keep_unsynchronized (ri_whfast r))
    by reflexivity.
  destruct (keep_unsynchronized (ri_whfast r) =? 0) eqn:Hk; cbn [negb];
    repeat run_step;
    rewrite (bind_as_calls _ _ _ _ (trailing_drift_run _ r0));
    rewrite (bind_as_calls _ _ _ _ (corrector_driver_after_run _ _));
    unfold reb_transformations_jacobi_to_inertial_posvel;
    rewrite bind_perform, bind_gets;
    rewrite !N_exec_all, !dt_exec_all;
    change (N r0) with (N r); change (dt r0) with (dt r);
    rewrite keep_unsynchronized_exec by reflexivity;
    rewrite !keep_unsynchronized_exec_all, Hk0, Hk; cbn [negb];
    rewrite ?bind_gets, ?N_exec by reflexivity;
    rewrite ?N_exec_all;
    rewrite !exec_all_app, !after_calls_app;
    unfold modify, after_calls; cbn [fst snd];
    rewrite app_nil_r, <- app_assoc; reflexivity.
Qed.

Lemma bind_init {B : Type} (k : Z -> M B) r :
  bind reb_integrator_whfast_init k r =
  after_calls [call_whfast_init] (k (fst (ext_whfast_init r)) (exec call_whfast_init r)).
Proof. rewrite bind_run. reflexivity. Qed.

Lemma part1_rejected_run r msg :
  rejection_message r = Some msg ->
  reb_integrator_wkm_part1 r =
  (tt, ext_error msg (set_gravity_ignore_terms 1 r), [call_error msg]).
Proof.
  unfold rejection_message, reb_integrator_wkm_part1.
  rewrite bind_gets, bind_modify, !bind_gets. cbn [var_config_N set_gravity_ignore_terms
    ri_whfast coordinates].
  destruct (is_jacobi (coordinates (ri_whfast r))); cbn [negb andb].
  - rewrite Bool.andb_false_r.
    destruct (1 <? Z.quot (corrector (ri_wkm r)) 10); [|discriminate].
    intro H. injection H as <-. reflexivity.
  - rewrite Bool.andb_true_r.
    destruct (0 <? var_config_N r); intro H; injection H as <-; reflexivity.
Qed.

(** lines 122-141 *)
Lemma part1_body_run (c k : Z) r :
  (sync <- gets (fun r => is_synchronized (ri_wkm r)) ;;
   (if negb (sync =? 0) then
      (if negb (c =? 0) then
         reb_whfast_apply_corrector 1 11 reb_wkm_corrector_Z ;;
         (if 2 <=? c then d <- gets dt ;; reb_wkm_apply_corrector2 d else ret tt)
       else ret tt) ;;
      (if k =? 0 then
         d <- gets dt ;; reb_whfast_kepler_step (5 / 8 * d)%float ;;
         d <- gets dt ;; reb_whfast_com_step (5 / 8 * d)%float
       else if k =? 1 then
         d <- gets dt ;; reb_whfast_kepler_step (1 / 2 * d)%float ;;
         d <- gets dt ;; reb_whfast_com_step (1 / 2 * d)%float
       else ret tt)
    else
      d <- gets dt ;; reb_whfast_kepler_step d ;;
      d <- gets dt ;; reb_whfast_com_step d) ;;
   reb_integrator_whfast_to_inertial)%wkm r =
  perform_all
    ((if is_synchronized (ri_wkm r) =? 0 then drift (dt r)
      else corrector_driver_stages false c (N r) (dt r) ++ leading_drift k (dt r)) ++
     [call_whfast_to_inertial]) r.
Proof.
  rewrite bind_gets.
  destruct (is_synchronized (ri_wkm r) =? 0); cbn [negb].
  - apply seq_run; [apply full_drift_run | reflexivity].
  - apply seq_run; [|reflexivity].
    apply seq_run; [apply corrector_driver_before_run|].
    now rewrite leading_drift_run, dt_exec_all.
Qed.

Lemma prepare_step_run r :
  let r1 := exec call_whfast_init (set_gravity_ignore_terms 1 r) in
  prepare_step r =
  if negb (safe_mode (ri_wkm r1) =? 0)
     || negb (recalculate_coordinates_this_timestep (ri_whfast r1) =? 0)
  then (tt, set_recalculate_coordinates_this_timestep 0
              (exec call_whfast_from_inertial r1),
        [call_whfast_init; call_whfast_from_inertial])
  else (tt, r1, [call_whfast_init]).
Proof.
  cbv zeta. unfold prepare_step.
  rewrite bind_modify, bind_init, !bind_gets.
  destruct (_ || _); reflexivity.
Qed.

Lemma prepare_step_control r :
  control (state_of (prepare_step r)) = control (set_gravity_ignore_terms 1 r).
Proof.
  rewrite prepare_step_run. cbv zeta.
  destruct (_ || _); unfold state_of; cbn [fst snd].
  - change (control (set_recalculate_coordinates_this_timestep 0 ?s)) with (control s).
    now rewrite !exec_control.
  - apply exec_control.
Qed.

Lemma part1_accepted_run r :
  rejection_message r = None ->
  fst (ext_whfast_init (set_gravity_ignore_terms 1 r)) = 0 ->
  let c := Z.rem (corrector (ri_wkm r)) 10 in
  let k := Z.quot (corrector (ri_wkm r)) 10 in
  let stages :=
    (if is_synchronized (ri_wkm r) =? 0 then drift (dt r)
     else corrector_driver_stages false c (N r) (dt r) ++ leading_drift k (dt r)) ++
    [call_whfast_to_inertial] in
  reb_integrator_wkm_part1 r = (prepare_step ;; perform_all stages)%wkm r.
Proof.
  intros Hrej Hinit. cbv zeta.
  destruct (control_fields _ _ (prepare_step_control r))
    as (_ & Hdt & _ & _ & HN & _ & _ & _ & _ & Hwkm).
  change (dt (set_gravity_ignore_terms 1 r)) with (dt r) in Hdt.
  change (N (set_gravity_ignore_terms 1 r)) with (N r) in HN.
  change (ri_wkm (set_gravity_ignore_terms 1 r)) with (ri_wkm r) in Hwkm.
  rewrite (bind_run prepare_step).
  revert Hdt HN Hwkm. rewrite prepare_step_run. cbv zeta.
  unfold rejection_message in Hrej.
  unfold reb_integrator_wkm_part1.
  rewrite bind_gets, !bind_modify, !bind_gets. cbn [var_config_N set_gravity_ignore_terms
    ri_whfast coordinates].
  destruct (is_jacobi (coordinates (ri_whfast r))); cbn [negb andb] in *;
    [|destruct (0 <? var_config_N r); discriminate].
  rewrite Bool.andb_false_r.
  destruct (1 <? Z.quot (corrector (ri_wkm r)) 10); [discriminate|].
  set (r0 := set_gravity_ignore_terms 1 r) in *.
  rewrite bind_init, Hinit. cbn [Z.eqb negb].
  rewrite !bind_gets.
  set (r1 := exec call_whfast_init r0) in *.
  destruct (negb (safe_mode (ri_wkm r1) =? 0)
            || negb (recalculate_coordinates_this_timestep (ri_whfast r1) =? 0));
    unfold state_of, calls_of; cbn [fst snd]; intros Hdt HN Hwkm.
  - unfold reb_integrator_whfast_from_inertial.
    rewrite ?bind_assoc, !bind_perform, !bind_modify. 
    rewrite part1_body_run, Hdt, HN, Hwkm, after_calls_app. reflexivity.
  - rewrite bind_ret, part1_body_run, Hdt, HN, Hwkm. reflexivity.
Qed.
Lemma part1_init_failed_run r :
  rejection_message r = None ->
  fst (ext_whfast_init (set_gravity_ignore_terms 1 r)) <> 0 ->
  reb_integrator_wkm_part1 r =
  (tt, exec call_whfast_init (set_gravity_ignore_terms 1 r), [call_whfast_init]).
Proof.
  intros Hrej Hinit.
  unfold rejection_message in Hrej.
  unfold reb_integrator_wkm_part1.
  rewrite bind_gets, !bind_modify, !bind_gets. cbn [var_config_N set_gravity_ignore_terms
    ri_whfast coordinates].
  destruct (is_jacobi (coordinates (ri_whfast r))); cbn [negb andb] in *;
    [|destruct (0 <? var_config_N r); discriminate].
  rewrite Bool.andb_false_r.
  destruct (1 <? Z.quot (corrector (ri_wkm r)) 10); [discriminate|].
  rewrite bind_init.
  apply Z.eqb_neq in Hinit. rewrite Hinit. reflexivity.
Qed.

(** *** The stage lists are made of drift, kick and force calls only *)

Lemma plain_corrector_Z_stages n a b : forallb plain (corrector_Z_stages n a b) = true.
Proof. reflexivity. Qed.

Lemma plain_Z_composition_stages n inv d :
  forallb plain (Z_composition_stages n inv d) = true.
Proof.
  unfold Z_composition_stages.
  induction (ext_corrector_coefficients inv 11 d) as [|ab l IH]; [reflexivity|].
  cbn [flat_map]. now rewrite forallb_app, plain_corrector_Z_stages, IH.
Qed.

Lemma plain_corrector_driver_stages after c n d :
  forallb plain (corrector_driver_stages after c n d) = true.
Proof.
  unfold corrector_driver_stages. destruct (c =? 0); [reflexivity|].
  rewrite forallb_app, plain_Z_composition_stages.
  now destruct (2 <=? c).
Qed.

Lemma plain_trailing_drift k d : forallb plain (trailing_drift k d) = true.
Proof. unfold trailing_drift. now destruct (k =? 0), (k =? 1). Qed.

Lemma plain_synchronize_stages k c n d :
  forallb plain
    (trailing_drift k d ++ corrector_driver_stages true c n d ++
     [call_jacobi_to_inertial_posvel n]) = true.
Proof.
  now rewrite !forallb_app, plain_trailing_drift, plain_corrector_driver_stages.
Qed.

(** *** The end of a step *)

Lemma synchronized_noop r :
  is_synchronized (ri_wkm r) <> 0 -> reb_integrator_wkm_synchronize r = (tt, r, []).
Proof.
  intro H. unfold reb_integrator_wkm_synchronize. rewrite !bind_gets.
  apply Z.eqb_neq in H. rewrite H. reflexivity.
Qed.

Lemma synchronize_clock r :
  t (state_of (reb_integrator_wkm_synchronize r)) = t r /\
  dt (state_of (reb_integrator_wkm_synchronize r)) = dt r.
Proof.
  destruct (Z.eq_dec (is_synchronized (ri_wkm r)) 0) as [H|H].
  - rewrite (synchronize_run r H). cbv zeta. unfold state_of. cbn [fst snd].
    match goal with |- context [exec_all ?l ?s] =>
      destruct (control_fields _ _ (exec_all_control l s)) as (Ht & Hdt & _)
    end.
    destruct (keep_unsynchronized (ri_whfast r) =? 0); cbn; rewrite Ht, Hdt; split; reflexivity.
  - rewrite (synchronized_noop r H). split; reflexivity.
Qed.

Lemma finish_step_run r :
  finish_step r =
  let ru := set_is_synchronized 0 r in
  if safe_mode (ri_wkm r) =? 0 then
    (tt, set_dt_last_done (dt r) (set_t (t r + dt r)%float ru), [])
  else
    let rs := state_of (reb_integrator_wkm_synchronize ru) in
    (tt, set_dt_last_done (dt r) (set_t (t r + dt r)%float rs),
     calls_of (reb_integrator_wkm_synchronize ru)).
Proof.
  cbv zeta. unfold finish_step.
  rewrite bind_modify, bind_gets.
  change (safe_mode (ri_wkm (set_is_synchronized 0 r))) with (safe_mode (ri_wkm r)).
  destruct (safe_mode (ri_wkm r) =? 0); cbn [negb].
  - rewrite bind_ret, bind_modify. reflexivity.
  - rewrite bind_run, bind_modify.
    destruct (synchronize_clock (set_is_synchronized 0 r)) as [Ht Hdt].
    unfold modify, after_calls. cbn [fst snd].
    set (rs := state_of (reb_integrator_wkm_synchronize (set_is_synchronized 0 r))) in *.
    change (dt (set_t (t rs + dt rs)%float rs)) with (dt rs).
    rewrite Ht, Hdt, app_nil_r. reflexivity.
Qed.

End Runs.

(** ** The loops of the lazy-implementer kernel *)

Section LazyLoops.

Lemma p_j_upd_length i f l : List.length (p_j_upd i f l) = List.length l.
Proof.
  revert i. induction l as [|p l IH]; intros [|i]; cbn; auto.
Qed.

Lemma p_j_get_upd_same i f l :
  (i < List.length l)%nat -> p_j_get (p_j_upd i f l) i = f (p_j_get l i).
Proof.
  unfold p_j_get. revert i. induction l as [|p l IH]; intros [|i] H; cbn in *;
    try lia; [reflexivity|]. apply IH. lia.
Qed.

Lemma p_j_get_upd_other i j f l :
  i <> j -> p_j_get (p_j_upd i f l) j = p_j_get l j.
Proof.
  unfold p_j_get. revert i j. induction l as [|p l IH]; intros [|i] [|j] H; cbn;
    try reflexivity; try congruence. apply IH. congruence.
Qed.

Lemma eta_upto_S m0 p_j i :
  eta_upto m0 p_j (S i) = (eta_upto m0 p_j i + m (p_j_get p_j (S i)))%float.
Proof.
  unfold eta_upto. rewrite seq_S, fold_left_app. reflexivity.
Qed.

Lemma leb_succ_other j k :
  j <> S k -> (j <=? S k)%nat = (j <=? k)%nat.
Proof.
  intro H. destruct (Nat.leb_spec j k), (Nat.leb_spec j (S k)); try reflexivity; lia.
Qed.

(** One iteration, in the words of the specification. *)
Lemma lazy_iteration_step (d g eta : float) (pj tmp : list reb_particle) (i : nat) :
  wkm_lazy_iteration d g (eta, pj, tmp) i =
  let eta' := (eta + m (p_j_get pj i))%float in
  let tmp' :=
    if (1 <? i)%nat then
      p_j_upd i
        (fun q =>
           let f := indirect_factor g eta' (p_j_get pj i) in
           set_acc (ax q + f * x q) (ay q + f * y q) (az q + f * z q)%float q) tmp
    else tmp in
  (eta', p_j_upd i (displaced d (p_j_get tmp' i)) pj, tmp').
Proof. reflexivity. Qed.

(** The state of the correction loop after the indices [1..k]. *)
Lemma lazy_correction_invariant (d g m0 : float) (pj tmp : list reb_particle) (k : nat) :
  (k <= List.length pj - 1)%nat -> (k <= List.length tmp - 1)%nat ->
  exists pj' tmp',
    fold_left (wkm_lazy_iteration d g) (seq 1 k) (m0, pj, tmp) =
      (eta_upto m0 pj k, pj', tmp') /\
    List.length pj' = List.length pj /\ List.length tmp' = List.length tmp /\
    (forall j, p_j_get tmp' j =
               if (1 <=? j)%nat && (j <=? k)%nat
               then corrected g m0 pj j (p_j_get tmp j) else p_j_get tmp j) /\
    (forall j, p_j_get pj' j =
               if (1 <=? j)%nat && (j <=? k)%nat
               then displaced d (corrected g m0 pj j (p_j_get tmp j)) (p_j_get pj j)
               else p_j_get pj j).
Proof.
  induction k as [|k IH]; intros Hp Ht.
  - exists pj, tmp. repeat split; try reflexivity; intro j;
      destruct j as [|j]; reflexivity.
  - destruct IH as (pj' & tmp' & Hf & Hlp & Hlt & Htmp & Hpj); [lia|lia|].
    rewrite seq_S, fold_left_app, Hf. cbn [fold_left Nat.add].
    rewrite lazy_iteration_step. cbv zeta.
    assert (Hpk : p_j_get pj' (S k) = p_j_get pj (S k)).
    { rewrite Hpj. replace (S k <=? k)%nat with false by (symmetry; apply Nat.leb_gt; lia).
      now rewrite Bool.andb_false_r. }
    assert (Htk : p_j_get tmp' (S k) = p_j_get tmp (S k)).
    { rewrite Htmp. replace (S k <=? k)%nat with false by (symmetry; apply Nat.leb_gt; lia).
      now rewrite Bool.andb_false_r. }
    rewrite Hpk, <- eta_upto_S.
    match goal with |- context [p_j_upd (S k) (displaced d (p_j_get ?T (S k))) pj'] =>
      set (tmp'' := T) end.
    assert (HA : p_j_get tmp'' (S k) = corrected g m0 pj (S k) (p_j_get tmp (S k))).
    { unfold tmp'', corrected. destruct (1 <? S k)%nat; [|exact Htk].
      rewrite p_j_get_upd_same by lia. now rewrite Htk. }
    assert (HB : forall j, j <> S k -> p_j_get tmp'' j = p_j_get tmp' j).
    { intros j Hj. unfold tmp''. destruct (1 <? S k)%nat; [|reflexivity].
      apply p_j_get_upd_other. congruence. }
    assert (HC : List.length tmp'' = List.length tmp).
    { unfold tmp''. destruct (1 <? S k)%nat; [|exact Hlt].
      now rewrite p_j_upd_length. }
    eexists _, tmp''. split; [reflexivity|].
    split; [now rewrite p_j_upd_length|]. split; [exact HC|].
    split; intro j; destruct (Nat.eq_dec j (S k)) as [->|Hj].
    + rewrite HA. replace (S k <=? S k)%nat with true by (symmetry; apply Nat.leb_refl).
      reflexivity.
    + rewrite HB, Htmp, leb_succ_other by assumption. reflexivity.
    + rewrite p_j_get_upd_same, HA, Hpk by lia.
      replace (S k <=? S k)%nat with true by (symmetry; apply Nat.leb_refl).
      reflexivity.
    + rewrite p_j_get_upd_other, Hpj, leb_succ_other by congruence. reflexivity.
Qed.

(** The reset loop after the indices [1..k]. *)
Lemma lazy_reset_invariant (pj tmp : list reb_particle) (k : nat) :
  (k <= List.length pj - 1)%nat ->
  let pj' :=
    fold_left
      (fun p_j i =>
         let ti := p_j_get tmp i in p_j_upd i (set_pos (x ti) (y ti) (z ti)) p_j)
      (seq 1 k) pj in
  List.length pj' = List.length pj /\
  forall j, p_j_get pj' j =
            if (1 <=? j)%nat && (j <=? k)%nat
            then set_pos (x (p_j_get tmp j)) (y (p_j_get tmp j)) (z (p_j_get tmp j))
                   (p_j_get pj j)
            else p_j_get pj j.
Proof.
  cbv zeta. induction k as [|k IH]; intro Hp.
  - split; [reflexivity|]. intros [|j]; reflexivity.
  - destruct IH as [Hl Hj]; [lia|].
    rewrite seq_S, fold_left_app. cbn [fold_left Nat.add].
    split; [now rewrite p_j_upd_length|].
    intro j. destruct (Nat.eq_dec j (S k)) as [->|Hne].
    + rewrite p_j_get_upd_same by lia. rewrite Hj.
      replace (S k <=? k)%nat with false by (symmetry; apply Nat.leb_gt; lia).
      replace (S k <=? S k)%nat with true by (symmetry; apply Nat.leb_refl).
      rewrite Bool.andb_false_r. reflexivity.
    + rewrite p_j_get_upd_other, Hj, leb_succ_other by congruence. reflexivity.
Qed.

End LazyLoops.

Section LazyKernel.

Context {E : External}.

(** lines 233-285, followed by the end of the step. *)
Lemma part2_lazy_run r pj :
  p_jh (ri_whfast r) = Some pj ->
  Z.quot (corrector (ri_wkm r)) 10 = 1 ->
  reb_integrator_wkm_part2 r =
  after_calls
    ([call_inertial_to_jacobi_acc (N r)] ++ reposition_reforce (N r) ++ kick (dt r))
    (finish_step (lazy_restored_state r)).
Proof.
  intros Hp Hk.
  unfold reb_integrator_wkm_part2, finish_step.
  rewrite !bind_gets, Hp, Hk. cbn [Z.eqb Pos.eqb].
  unfold_calls.
  unfold lazy_restored_state, lazy_kicked_state, lazy_displaced_state,
    lazy_snapshot_state.
  repeat run_step.
  destruct (allocated_N (ri_wkm r) =? N r); cbn [negb];
    repeat run_step; rewrite !after_calls_app; reflexivity.
Qed.

Context {HE : ExternalOk E}.

Lemma realloc_length p n : List.length (realloc p n) = Z.to_nat n.
Proof.
  unfold realloc. rewrite length_app, length_firstn, repeat_length. lia.
Qed.

Lemma memcpy_all dst src n :
  Z.of_nat (List.length src) = n -> Z.of_nat (List.length dst) = n ->
  memcpy dst src n = src.
Proof.
  intros Hs Hd. unfold memcpy. rewrite <- Hs, Nat2Z.id, firstn_all.
  rewrite skipn_all2 by lia. apply app_nil_r.
Qed.

Lemma corrected_pos g m0 pj i q :
  x (corrected g m0 pj i q) = x q /\ y (corrected g m0 pj i q) = y q /\
  z (corrected g m0 pj i q) = z q.
Proof. unfold corrected. destruct (1 <? i)%nat; repeat split; reflexivity. Qed.

Lemma in_loop_range (i n : nat) :
  ((1 <=? i) && (i <=? n - 1))%nat = ((1 <=? i) && (i <? n))%nat.
Proof.
  destruct (Nat.leb_spec 1 i), (Nat.leb_spec i (n - 1)), (Nat.ltb_spec i n);
    cbn; try reflexivity; lia.
Qed.

(** lines 240-253: after the snapshot both buffers hold the Coordinate
    Buffer with the Jacobi accelerations. *)
Lemma lazy_snapshot_facts r pj :
  p_jh (ri_whfast r) = Some pj ->
  Z.of_nat (List.length pj) = N r ->
  scratch_ready r ->
  let pj1 := ext_inertial_to_jacobi_acc (particles r) pj (particles r) (N r) in
  let r1 := lazy_snapshot_state r in
  p_jh (ri_whfast r1) = Some pj1 /\ temp_pj (ri_wkm r1) = Some pj1 /\
  allocated_N (ri_wkm r1) = N r /\ particles r1 = particles r /\
  List.length pj1 = List.length pj.
Proof.
  intros Hp Hn Hs pj1 r1.
  assert (Hl : List.length pj1 = List.length pj) by apply inertial_to_jacobi_acc_length.
  subst r1. unfold lazy_snapshot_state. cbv zeta.
  destruct (Z.eqb_spec (allocated_N (ri_wkm r)) (N r)) as [Ha|Ha].
  - destruct (Hs Ha) as (l & Hl0 & Hll).
    cbn. rewrite Hp, Hl0. cbn. fold pj1.
    rewrite memcpy_all by lia. repeat split; auto.
  - cbn. rewrite Hp. cbn. fold pj1.
    rewrite memcpy_all; [repeat split; auto | lia |].
    rewrite realloc_length. lia.
Qed.

End LazyKernel.

(** The Toy routines respect the frame conditions. *)
Lemma toy_overlay_length f l1 l2 : List.length (Toy.overlay f l1 l2) = List.length l1.
Proof.
  revert l2. induction l1 as [|p l1 IH]; intros [|q l2]; cbn; auto.
Qed.

Lemma toy_on_buffer_shape f r :
  (forall l, List.length (f l) = List.length l) ->
  buffer_shape (Toy.on_buffer f r) = buffer_shape r.
Proof.
  intro H. unfold buffer_shape, Toy.on_buffer. cbn.
  destruct (p_jh (ri_whfast r)); cbn; [now rewrite H | reflexivity].
Qed.

Lemma toy_external_ok : ExternalOk Toy.external.
Proof.
  constructor; cbn; intros; try reflexivity.
  - apply toy_on_buffer_shape. intros [|p l]; cbn; [|rewrite length_map]; reflexivity.
  - apply toy_on_buffer_shape. intros [|p l]; reflexivity.
  - apply toy_on_buffer_shape. intro l. now rewrite length_map, toy_overlay_length.
  - apply toy_overlay_length.
  - unfold Toy.whfast_init. now destruct (p_jh (ri_whfast r)).
Defined.

(** ** The step sequencer against its specification *)

(** C6: for all coefficients [a], [b] the Corrector Kernel Z makes exactly
    the calls: orbital drift [a], inertial positions from the Coordinate
    Buffer, accelerations, kick [-b], orbital drift [-2a], inertial
    positions, accelerations, kick [b], orbital drift [a].  Its final state
    is the one these nine calls produce (Z writes no field itself), so the
    times, particle count, flags and WKM configuration are untouched and
    the Coordinate Buffer keeps its shape. *)
Theorem corrector_Z_sequence (E : External) (HE : ExternalOk E)
  (a b : float) (r : reb_simulation) :
  let stages :=
    [call_kepler_step a;
     call_jacobi_to_inertial_pos (N r); call_update_acceleration;
     call_interaction_step (- b)%float;
     call_kepler_step (-2 * a)%float;
     call_jacobi_to_inertial_pos (N r); call_update_acceleration;
     call_interaction_step b;
     call_kepler_step a] in
  reb_wkm_corrector_Z a b r = (tt, exec_all stages r, stages) /\
  control (state_of (reb_wkm_corrector_Z a b r)) = control r /\
  buffer_shape (state_of (reb_wkm_corrector_Z a b r)) = buffer_shape r.
Proof.
  cbv zeta. split; [reflexivity|]. apply framed_corrector_Z.
Qed.

Lemma corrector_Z_sequence_witness :
  ExternalOk Toy.external /\
  calls_of (reb_wkm_corrector_Z (E:=Toy.external) 0.5 0.25 (Examples.sim 1)) =
  [call_kepler_step 0.5;
   call_jacobi_to_inertial_pos 3; call_update_acceleration;
   call_interaction_step (-0.25);
   call_kepler_step (-1);
   call_jacobi_to_inertial_pos 3; call_update_acceleration;
   call_interaction_step 0.25;
   call_kepler_step 0.5].
Proof.
  split; [exact toy_external_ok|].
  exact (f_equal calls_of
           (proj1 (corrector_Z_sequence Toy.external toy_external_ok 0.5 0.25
                     (Examples.sim 1)))).
Defined.

(** C3: with kernel 0 and the Coordinate Buffer present, [step_part2]
    applies exactly kick(-1/6), drift(-1/4), kick(1/6), drift(1/8), kick(1),
    drift(-1/8), kick(-1/6), drift(1/4), kick(1/6) in units of [dt]; each
    drift is the orbital drift followed by the centre-of-mass drift of the
    same coefficient; every kick but the first comes right after the
    inertial positions are recomputed from the Coordinate Buffer and the
    accelerations re-evaluated.  The step is then finished as after either
    kernel. *)
Theorem part2_composition_kernel (E : External) (HE : ExternalOk E)
  (r : reb_simulation) (pj : list reb_particle) :
  p_jh (ri_whfast r) = Some pj ->
  Z.quot (corrector (ri_wkm r)) 10 = 0 ->
  let d := dt r in
  let n := N r in
  let stages :=
    [call_interaction_step (-1 / 6 * d)%float;
     call_kepler_step (-1 / 4 * d)%float; call_com_step (-1 / 4 * d)%float;
     call_jacobi_to_inertial_pos n; call_update_acceleration;
     call_interaction_step (1 / 6 * d)%float;
     call_kepler_step (1 / 8 * d)%float; call_com_step (1 / 8 * d)%float;
     call_jacobi_to_inertial_pos n; call_update_acceleration;
     call_interaction_step d;
     call_kepler_step (-1 / 8 * d)%float; call_com_step (-1 / 8 * d)%float;
     call_jacobi_to_inertial_pos n; call_update_acceleration;
     call_interaction_step (-1 / 6 * d)%float;
     call_kepler_step (1 / 4 * d)%float; call_com_step (1 / 4 * d)%float;
     call_jacobi_to_inertial_pos n; call_update_acceleration;
     call_interaction_step (1 / 6 * d)%float] in
  composition_kernel_stages n d = stages /\
  reb_integrator_wkm_part2 r = (perform_all stages ;; finish_step)%wkm r.
Proof.
  intros Hp Hk. cbv zeta. split; [reflexivity|].
  rewrite bind_perform_all.
  unfold reb_integrator_wkm_part2, finish_step.
  rewrite !bind_gets, Hp, Hk. cbn [Z.eqb].
  unfold_calls.
  repeat run_step.
  rewrite !dt_exec by reflexivity.
  rewrite !after_calls_app.
  reflexivity.
Qed.

Lemma part2_composition_kernel_witness :
  ExternalOk Toy.external /\
  p_jh (ri_whfast (Examples.sim 1)) = Some [Examples.sun; Examples.planet; Examples.moon] /\
  Z.quot (corrector (ri_wkm (Examples.sim 1))) 10 = 0 /\
  calls_of (reb_integrator_wkm_part2 (E:=Toy.external) (Examples.sim 1)) =
  composition_kernel_stages 3 0.01.
Proof.
  split; [exact toy_external_ok|]. split; [reflexivity|]. split; [reflexivity|].
  rewrite (proj2 (part2_composition_kernel Toy.external toy_external_ok
                    (Examples.sim 1) _ eq_refl eq_refl)).
  vm_compute. reflexivity.
Defined.

(** C1, as the code has it: when [step_part1] rejects the configuration
    (coordinate scheme not Jacobi, with or without variational particles,
    or kernel digit above 1) its only external call is [reb_error] with the
    message, so no drift or kick is applied, and the simulation it leaves
    is the one it was given except for [gravity_ignore_terms], which is 1,
    and the message buffer: [t], [dt_last_done], the particles, the
    Coordinate Buffer and the WKM configuration are unchanged. *)
Theorem part1_rejection_frame (E : External) (HE : ExternalOk E) (r : reb_simulation) :
  is_jacobi (coordinates (ri_whfast r)) = false \/
  1 < Z.quot (corrector (ri_wkm r)) 10 ->
  let r' := state_of (reb_integrator_wkm_part1 r) in
  exists msg,
    rejection_message r = Some msg /\
    calls_of (reb_integrator_wkm_part1 r) = [call_error msg] /\
    r' = set_messages (messages r') (set_gravity_ignore_terms 1 r) /\
    t r' = t r /\ dt_last_done r' = dt_last_done r /\
    particles r' = particles r /\ ri_whfast r' = ri_whfast r /\
    ri_wkm r' = ri_wkm r.
Proof.
  intros H r'.
  assert (Hm : exists msg, rejection_message r = Some msg).
  { unfold rejection_message.
    destruct (is_jacobi (coordinates (ri_whfast r))); cbn [negb].
    - destruct H as [H|H]; [discriminate|].
      apply Z.ltb_lt in H. rewrite H. eauto.
    - destruct (0 <? var_config_N r); eauto. }
  destruct Hm as [msg Hm]. exists msg. split; [assumption|].
  subst r'. rewrite (part1_rejected_run r msg Hm). unfold state_of, calls_of. cbn [fst snd].
  split; [reflexivity|].
  assert (He := error_only_messages msg (set_gravity_ignore_terms 1 r)).
  split; [exact He|]. rewrite He. repeat split; reflexivity.
Qed.

Lemma part1_rejection_frame_witness :
  ExternalOk Toy.external /\
  1 < Z.quot (corrector (ri_wkm (Examples.sim 21))) 10 /\
  calls_of (reb_integrator_wkm_part1 (E:=Toy.external) (Examples.sim 21)) =
  [call_error "WKM Kernel not implemented"].
Proof.
  split; [exact toy_external_ok|]. split; [reflexivity|].
  destruct (part1_rejection_frame Toy.external toy_external_ok (Examples.sim 21)
              (or_intror eq_refl)) as (msg & Hm & Hc & _).
  rewrite Hc. f_equal. f_equal.
  apply (f_equal (fun o => match o with Some s => s | None => EmptyString end)) in Hm.
  symmetry. exact Hm.
Defined.

(** C1 as stated fails: a rejected call does mutate the state.  With kernel
    digit 2 and [gravity_ignore_terms = 0] the call is rejected and leaves
    [gravity_ignore_terms = 1]. *)
Lemma part1_rejection_mutates_flag :
  rejection_message (Examples.sim 21) = Some "WKM Kernel not implemented"%string /\
  gravity_ignore_terms (Examples.sim 21) = 0 /\
  gravity_ignore_terms
    (state_of (reb_integrator_wkm_part1 (E:=Toy.external) (Examples.sim 21))) = 1 /\
  state_of (reb_integrator_wkm_part1 (E:=Toy.external) (Examples.sim 21))
  <> Examples.sim 21.
Proof.
  split; [reflexivity|]. split; [reflexivity|]. split; [reflexivity|].
  intro H. apply (f_equal gravity_ignore_terms) in H. discriminate H.
Qed.

(** C10: every call of [step_part1], accepted or rejected by the
    configuration checks or stopped by a failing WHFast initialisation,
    leaves [gravity_ignore_terms = 1]: the flag is set before the first
    check and nothing called afterwards changes it. *)
Theorem part1_sets_gravity_ignore_terms (E : External) (HE : ExternalOk E)
  (r : reb_simulation) :
  gravity_ignore_terms (state_of (reb_integrator_wkm_part1 r)) = 1.
Proof.
  assert (Hc : control (state_of (reb_integrator_wkm_part1 r)) =
               control (set_gravity_ignore_terms 1 r)).
  { destruct (rejection_message r) as [msg|] eqn:Hm.
    - rewrite (part1_rejected_run r msg Hm). apply (exec_control (call_error msg)).
    - destruct (Z.eq_dec (fst (ext_whfast_init (set_gravity_ignore_terms 1 r))) 0)
        as [Hi|Hi].
      + rewrite (part1_accepted_run r Hm Hi). cbv zeta.
        rewrite bind_run, perform_all_run. unfold after_calls.
        unfold state_of at 1. cbn [fst snd].
        rewrite exec_all_control. apply prepare_step_control.
      + rewrite (part1_init_failed_run r Hm Hi). apply (exec_control call_whfast_init). }
  now apply control_fields in Hc.
Qed.

Lemma part1_sets_gravity_ignore_terms_witness :
  ExternalOk Toy.external /\
  gravity_ignore_terms (Examples.sim_heliocentric) = 0 /\
  gravity_ignore_terms
    (state_of (reb_integrator_wkm_part1 (E:=Toy.external) Examples.sim_heliocentric)) = 1.
Proof.
  split; [exact toy_external_ok|]. split; [reflexivity|].
  exact (part1_sets_gravity_ignore_terms Toy.external toy_external_ok
           Examples.sim_heliocentric).
Defined.

(** C7: once the configuration checks and the WHFast initialisation have
    passed, [step_part1] finishes the set-up and then, if the state is
    synchronized, applies the pre-step corrector layers followed by the
    leading drift of the kernel, orbital then centre-of-mass, by [5/8 dt]
    for kernel 0 and [1/2 dt] for kernel 1; if the state is unsynchronized
    it applies no corrector and one full drift by [dt], orbital then
    centre-of-mass.  In both cases the last call converts the Coordinate
    Buffer back to inertial form. *)
Theorem part1_after_checks (E : External) (HE : ExternalOk E) (r : reb_simulation) :
  let c := Z.rem (corrector (ri_wkm r)) 10 in
  let k := Z.quot (corrector (ri_wkm r)) 10 in
  let d := dt r in
  let lead := if k =? 0 then (5 / 8 * d)%float else (1 / 2 * d)%float in
  is_jacobi (coordinates (ri_whfast r)) = true ->
  k = 0 \/ k = 1 ->
  fst (ext_whfast_init (set_gravity_ignore_terms 1 r)) = 0 ->
  reb_integrator_wkm_part1 r =
  (prepare_step ;;
   perform_all
     ((if is_synchronized (ri_wkm r) =? 0
       then [call_kepler_step d; call_com_step d]
       else corrector_driver_stages false c (N r) d ++
            [call_kepler_step lead; call_com_step lead]) ++
      [call_whfast_to_inertial]))%wkm r.
Proof.
  intros c k d lead Hj Hk Hi.
  assert (Hm : rejection_message r = None).
  { unfold rejection_message. rewrite Hj. cbn [negb]. fold k.
    destruct Hk as [-> | ->]; reflexivity. }
  rewrite (part1_accepted_run r Hm Hi). cbv zeta. fold k c d.
  replace (leading_drift k d) with [call_kepler_step lead; call_com_step lead];
    [reflexivity|].
  subst lead. unfold leading_drift. destruct Hk as [-> | ->]; reflexivity.
Qed.

Lemma part1_after_checks_witness :
  ExternalOk Toy.external /\
  is_jacobi (coordinates (ri_whfast (Examples.sim_synchronized 10))) = true /\
  (Z.quot (corrector (ri_wkm (Examples.sim_synchronized 10))) 10 = 0 \/
   Z.quot (corrector (ri_wkm (Examples.sim_synchronized 10))) 10 = 1) /\
  fst (@ext_whfast_init Toy.external
         (set_gravity_ignore_terms 1 (Examples.sim_synchronized 10))) = 0 /\
  calls_of (reb_integrator_wkm_part1 (E:=Toy.external) (Examples.sim_synchronized 10)) =
  [call_whfast_init; call_kepler_step 0.005; call_com_step 0.005;
   call_whfast_to_inertial].
Proof.
  split; [exact toy_external_ok|]. split; [reflexivity|].
  split; [right; reflexivity|]. split; [reflexivity|].
  rewrite (part1_after_checks Toy.external toy_external_ok
             (Examples.sim_synchronized 10) eq_refl (or_intror eq_refl) eq_refl).
  vm_compute. reflexivity.
Defined.




(** C8: [synchronize] does nothing when the state is synchronized.
    Otherwise it applies the trailing drift of the kernel, orbital then
    centre-of-mass, by [3/8 dt] for kernel 0 and [1/2 dt] for kernel 1, then
    the corrector layers with sign [-1] and time step [-dt], then converts
    the Coordinate Buffer to inertial positions and velocities; without the
    keep-unsynchronized policy it commits: the state it leaves is the one
    these calls produce, marked synchronized. *)
Theorem synchronize_transition (E : External) (HE : ExternalOk E) (r : reb_simulation) :
  let c := Z.rem (corrector (ri_wkm r)) 10 in
  let k := Z.quot (corrector (ri_wkm r)) 10 in
  let d := dt r in
  let trail := if k =? 0 then (3 / 8 * d)%float else (1 / 2 * d)%float in
  let stages :=
    [call_kepler_step trail; call_com_step trail] ++
    corrector_driver_stages true c (N r) d ++
    [call_jacobi_to_inertial_posvel (N r)] in
  (is_synchronized (ri_wkm r) <> 0 ->
   reb_integrator_wkm_synchronize r = (tt, r, [])) /\
  (is_synchronized (ri_wkm r) = 0 -> k = 0 \/ k = 1 ->
   calls_of (reb_integrator_wkm_synchronize r) = stages /\
   (keep_unsynchronized (ri_whfast r) = 0 ->
    state_of (reb_integrator_wkm_synchronize r) =
    set_is_synchronized 1 (exec_all stages (set_gravity_ignore_terms 1 r)) /\
    is_synchronized (ri_wkm (state_of (reb_integrator_wkm_synchronize r))) = 1)).
Proof.
  intros c k d trail stages. split; [apply synchronized_noop|].
  intros Hs Hk.
  assert (Ht : trailing_drift k d = [call_kepler_step trail; call_com_step trail]).
  { subst trail. unfold trailing_drift. destruct Hk as [-> | ->]; reflexivity. }
  rewrite (synchronize_run r Hs). cbv zeta. fold c k d. rewrite Ht. fold stages.
  split; [reflexivity|].
  intros ->. split; reflexivity.
Qed.

Lemma synchronize_transition_witness :
  ExternalOk Toy.external /\
  is_synchronized (ri_wkm (Examples.sim 10)) = 0 /\
  (Z.quot (corrector (ri_wkm (Examples.sim 10))) 10 = 0 \/
   Z.quot (corrector (ri_wkm (Examples.sim 10))) 10 = 1) /\
  calls_of (reb_integrator_wkm_synchronize (E:=Toy.external) (Examples.sim 10)) =
  [call_kepler_step 0.005; call_com_step 0.005; call_jacobi_to_inertial_posvel 3] /\
  reb_integrator_wkm_synchronize (E:=Toy.external) (Examples.sim_synchronized 10) =
  (tt, Examples.sim_synchronized 10, []).
Proof.
  split; [exact toy_external_ok|]. split; [reflexivity|].
  split; [right; reflexivity|].
  split.
  - rewrite (proj1 (proj2 (synchronize_transition Toy.external toy_external_ok
                             (Examples.sim 10)) eq_refl (or_intror eq_refl))).
    vm_compute. reflexivity.
  - apply (proj1 (synchronize_transition Toy.external toy_external_ok
                    (Examples.sim_synchronized 10))).
    vm_compute. discriminate.
Defined.

(** C2, as the code has it: called unsynchronized under the
    keep-unsynchronized policy, with a Coordinate Buffer of [N] particles,
    [synchronize] leaves the Coordinate Buffer equal to its value before
    the call and [is_synchronized] at 0.  The rest of the state is not
    restored: the particle array holds the synchronized positions and
    velocities, the accelerations are those of the last force evaluation
    and [gravity_ignore_terms] is 1; the times, the particle count and the
    configuration are unchanged. *)
Theorem synchronize_keep_unsynchronized (E : External) (HE : ExternalOk E)
  (r : reb_simulation) (pj : list reb_particle) :
  is_synchronized (ri_wkm r) = 0 ->
  keep_unsynchronized (ri_whfast r) <> 0 ->
  p_jh (ri_whfast r) = Some pj ->
  Z.of_nat (List.length pj) = N r ->
  let c := Z.rem (corrector (ri_wkm r)) 10 in
  let k := Z.quot (corrector (ri_wkm r)) 10 in
  let stages :=
    trailing_drift k (dt r) ++ corrector_driver_stages true c (N r) (dt r) ++
    [call_jacobi_to_inertial_posvel (N r)] in
  let r' := state_of (reb_integrator_wkm_synchronize r) in
  p_jh (ri_whfast r') = Some pj /\
  is_synchronized (ri_wkm r') = 0 /\
  r' = set_p_jh (Some pj) (exec_all stages (set_gravity_ignore_terms 1 r)) /\
  control r' = control (set_gravity_ignore_terms 1 r).
Proof.
  intros Hs Hk Hp Hn c k stages r'.
  assert (Hr' : r' = set_p_jh (Some pj) (exec_all stages (set_gravity_ignore_terms 1 r))).
  { subst r'. rewrite (synchronize_run r Hs). cbv zeta. fold c k stages.
    unfold state_of. cbn [fst snd].
    apply Z.eqb_neq in Hk. rewrite Hk.
    set (r1 := exec_all stages (set_gravity_ignore_terms 1 r)).
    assert (Hshape : buffer_shape r1 = Some (List.length pj)).
    { unfold r1. rewrite exec_all_plain_shape by apply plain_synchronize_stages.
      unfold buffer_shape. cbn. now rewrite Hp. }
    unfold buffer_shape in Hshape.
    destruct (p_jh (ri_whfast r1)) as [l1|] eqn:Hl1; [|discriminate].
    cbn in Hshape. injection Hshape as Hlen.
    rewrite Hp. cbn [deref store]. f_equal. f_equal.
    unfold memcpy, malloc. rewrite <- Hn, Nat2Z.id.
    rewrite skipn_all2 by (rewrite repeat_length; lia).
    rewrite firstn_all, app_nil_r, firstn_all.
    rewrite skipn_all2 by lia. apply app_nil_r. }
  rewrite Hr'. split; [reflexivity|].
  assert (Hc : control (exec_all stages (set_gravity_ignore_terms 1 r)) =
               control (set_gravity_ignore_terms 1 r)) by apply exec_all_control.
  split; [|split; [reflexivity|exact Hc]].
  apply control_fields in Hc.
  destruct Hc as (_ & _ & _ & _ & _ & _ & _ & _ & _ & Hwkm).
  change (ri_wkm (set_p_jh (Some pj) ?s)) with (ri_wkm s).
  rewrite Hwkm. exact Hs.
Qed.

Lemma synchronize_keep_unsynchronized_witness :
  ExternalOk Toy.external /\
  is_synchronized (ri_wkm (Examples.sim_keep 1)) = 0 /\
  keep_unsynchronized (ri_whfast (Examples.sim_keep 1)) <> 0 /\
  Z.of_nat (List.length [Examples.sun; Examples.planet; Examples.moon]) =
  N (Examples.sim_keep 1) /\
  p_jh (ri_whfast
          (state_of (reb_integrator_wkm_synchronize (E:=Toy.external)
                       (Examples.sim_keep 1)))) =
  Some [Examples.sun; Examples.planet; Examples.moon].
Proof.
  split; [exact toy_external_ok|]. split; [reflexivity|].
  split; [vm_compute; discriminate|]. split; [reflexivity|].
  refine (proj1 (synchronize_keep_unsynchronized Toy.external toy_external_ok
                   (Examples.sim_keep 1) _ eq_refl _ eq_refl eq_refl)).
  vm_compute. discriminate.
Defined.

(** C2 as stated fails: the call does change state other than the
    Coordinate Buffer.  From [gravity_ignore_terms = 0] it leaves 1, and the
    planet of the particle array, at [y = 0] before the call, is left at the
    drifted [y = 0.00375]. *)
Lemma synchronize_keep_unsynchronized_mutates :
  is_synchronized (ri_wkm (Examples.sim_keep 0)) = 0 /\
  keep_unsynchronized (ri_whfast (Examples.sim_keep 0)) = 1 /\
  gravity_ignore_terms (Examples.sim_keep 0) = 0 /\
  gravity_ignore_terms
    (state_of (reb_integrator_wkm_synchronize (E:=Toy.external) (Examples.sim_keep 0)))
  = 1 /\
  y (p_j_get (particles (Examples.sim_keep 0)) 1) = 0%float /\
  y (p_j_get
       (particles
          (state_of (reb_integrator_wkm_synchronize (E:=Toy.external)
                       (Examples.sim_keep 0)))) 1) = 0.00375%float /\
  state_of (reb_integrator_wkm_synchronize (E:=Toy.external) (Examples.sim_keep 0))
  <> Examples.sim_keep 0.
Proof.
  repeat (split; [reflexivity|]).
  intro H. apply (f_equal gravity_ignore_terms) in H. discriminate H.
Qed.

(** C9, as the code has it: [step_part2] does not check the kernel digit
    again.  Entered with the Coordinate Buffer present and a kernel digit
    above 1, it runs neither kernel branch, so [step_part2] itself applies
    no kick, no drift and no force evaluation, and goes straight to the
    end of the step: the state is marked unsynchronized, [t] is advanced
    by [dt] and [dt_last_done] is set to [dt].  Without safe mode it makes
    no external call at all.  Under safe mode it calls [synchronize], which
    applies no trailing drift (the kernel is neither 0 nor 1) but does
    apply the post-step corrector layers, with their drifts, kicks and
    force evaluations when the corrector digit is not 0, and the
    conversion to inertial positions and velocities. *)
Theorem part2_unvalidated_kernel (E : External) (HE : ExternalOk E)
  (r : reb_simulation) (pj : list reb_particle) :
  p_jh (ri_whfast r) = Some pj ->
  1 < Z.quot (corrector (ri_wkm r)) 10 ->
  let c := Z.rem (corrector (ri_wkm r)) 10 in
  let o := reb_integrator_wkm_part2 r in
  o = finish_step r /\
  (safe_mode (ri_wkm r) = 0 ->
   o = (tt, set_dt_last_done (dt r)
              (set_t (t r + dt r)%float (set_is_synchronized 0 r)), [])) /\
  (safe_mode (ri_wkm r) <> 0 ->
   calls_of o =
   corrector_driver_stages true c (N r) (dt r) ++ [call_jacobi_to_inertial_posvel (N r)] /\
   is_synchronized (ri_wkm (state_of o)) =
   if keep_unsynchronized (ri_whfast r) =? 0 then 1 else 0) /\
  t (state_of o) = (t r + dt r)%float /\
  dt_last_done (state_of o) = dt r.
Proof.
  intros Hp Hk c o.
  assert (Ho : o = finish_step r).
  { subst o. unfold reb_integrator_wkm_part2. rewrite !bind_gets, Hp.
    destruct (Z.eqb_spec (Z.quot (corrector (ri_wkm r)) 10) 0) as [H0|_]; [lia|].
    destruct (Z.eqb_spec (Z.quot (corrector (ri_wkm r)) 10) 1) as [H1|_]; [lia|].
    rewrite bind_ret. reflexivity. }
  split; [exact Ho|]. rewrite Ho, finish_step_run. cbv zeta.
  split; [|split].
  - intros ->. reflexivity.
  - intro Hsm. apply Z.eqb_neq in Hsm. rewrite Hsm.
    rewrite (synchronize_run (set_is_synchronized 0 r) eq_refl). cbv zeta.
    unfold calls_of, state_of. cbn [fst snd].
    change (corrector (ri_wkm (set_is_synchronized 0 r))) with (corrector (ri_wkm r)).
    change (dt (set_is_synchronized 0 r)) with (dt r).
    change (N (set_is_synchronized 0 r)) with (N r).
    change (keep_unsynchronized (ri_whfast (set_is_synchronized 0 r)))
      with (keep_unsynchronized (ri_whfast r)).
    fold c.
    assert (Ht : trailing_drift (Z.quot (corrector (ri_wkm r)) 10) (dt r) = []).
    { unfold trailing_drift.
      destruct (Z.eqb_spec (Z.quot (corrector (ri_wkm r)) 10) 0) as [H0|_]; [lia|].
      destruct (Z.eqb_spec (Z.quot (corrector (ri_wkm r)) 10) 1) as [H1|_]; [lia|].
      reflexivity. }
    rewrite Ht. cbn [app]. split; [reflexivity|].
    destruct (keep_unsynchronized (ri_whfast r) =? 0); [reflexivity|].
    cbn. rewrite ri_wkm_exec_all. reflexivity.
  - destruct (safe_mode (ri_wkm r) =? 0); split; reflexivity.
Qed.

Lemma part2_unvalidated_kernel_witness :
  ExternalOk Toy.external /\
  p_jh (ri_whfast (Examples.sim 21)) = Some [Examples.sun; Examples.planet; Examples.moon] /\
  1 < Z.quot (corrector (ri_wkm (Examples.sim 21))) 10 /\
  reb_integrator_wkm_part2 (E:=Toy.external) (Examples.sim 21) =
  (tt, set_dt_last_done 0.01 (set_t 0.01 (Examples.sim 21)), []) /\
  safe_mode (ri_wkm (Examples.make REB_WHFAST_COORDINATES_JACOBI 0 20 1 0)) <> 0 /\
  calls_of (reb_integrator_wkm_part2 (E:=Toy.external)
              (Examples.make REB_WHFAST_COORDINATES_JACOBI 0 20 1 0)) =
  [call_jacobi_to_inertial_posvel 3] /\
  is_synchronized
    (ri_wkm (state_of (reb_integrator_wkm_part2 (E:=Toy.external)
                         (Examples.make REB_WHFAST_COORDINATES_JACOBI 0 20 1 0)))) = 1.
Proof.
  assert (Hsm : safe_mode (ri_wkm (Examples.make REB_WHFAST_COORDINATES_JACOBI 0 20 1 0))
                <> 0) by (vm_compute; discriminate).
  split; [exact toy_external_ok|]. split; [reflexivity|]. split; [reflexivity|].
  split.
  - rewrite (proj1 (proj2 (part2_unvalidated_kernel Toy.external toy_external_ok
                             (Examples.sim 21) _ eq_refl eq_refl)) eq_refl).
    vm_compute. reflexivity.
  - split; [exact Hsm|].
    destruct (proj1 (proj2 (proj2 (part2_unvalidated_kernel Toy.external toy_external_ok
                (Examples.make REB_WHFAST_COORDINATES_JACOBI 0 20 1 0) _
                eq_refl eq_refl))) Hsm) as [Hc Hi].
    split; [rewrite Hc; vm_compute; reflexivity | exact Hi].
Defined.

(** C9 as stated fails: with kernel digit 2, corrector digit 1 and safe mode
    on, [step_part2] does make kicks, drifts and force evaluations: the
    [synchronize] it calls runs the Z corrector.  On three bodies, and with
    the two-term table of the concrete routines, these are 4 kicks, 6
    drifts and 4 force evaluations. *)
Lemma part2_unvalidated_kernel_resynchronizes :
  p_jh (ri_whfast (Examples.make REB_WHFAST_COORDINATES_JACOBI 0 21 1 0)) =
  Some [Examples.sun; Examples.planet; Examples.moon] /\
  Z.quot (corrector (ri_wkm (Examples.make REB_WHFAST_COORDINATES_JACOBI 0 21 1 0))) 10 = 2 /\
  safe_mode (ri_wkm (Examples.make REB_WHFAST_COORDINATES_JACOBI 0 21 1 0)) = 1 /\
  List.length
    (filter is_kick
       (calls_of (reb_integrator_wkm_part2 (E:=Toy.external)
                    (Examples.make REB_WHFAST_COORDINATES_JACOBI 0 21 1 0)))) = 4%nat /\
  List.length
    (filter is_drift
       (calls_of (reb_integrator_wkm_part2 (E:=Toy.external)
                    (Examples.make REB_WHFAST_COORDINATES_JACOBI 0 21 1 0)))) = 6%nat /\
  List.length
    (filter is_force
       (calls_of (reb_integrator_wkm_part2 (E:=Toy.external)
                    (Examples.make REB_WHFAST_COORDINATES_JACOBI 0 21 1 0)))) = 4%nat.
Proof.
  repeat split; vm_compute; reflexivity.
Qed.

(** C4, as the code has it: with kernel 1 [step_part2] applies no kick
    with the accelerations it is entered with; its only kick is the one
    over [dt] after the correction pass.  In order: the accelerations are
    converted to the Jacobi frame; the Coordinate Buffer is copied into the
    Scratch Buffer (reallocated first if the particle count changed); for
    every index [1 <= i < N] the running mass [eta] is the mass of particle
    0 plus the Jacobi masses [1..i], the snapshot acceleration gets
    [G*eta/r^3] times the Jacobi position added when [i > 1], and the Jacobi
    position is displaced by [dt^2/12] times that acceleration; inertial
    positions are recomputed, forces re-evaluated, and the kick over [dt]
    applied; finally the Jacobi positions of the indices [1 <= i < N] are
    reset from the Scratch Buffer to their values before the displacement.
    The step is then finished as after either kernel. *)
Theorem part2_lazy_kernel (E : External) (HE : ExternalOk E)
  (r : reb_simulation) (pj : list reb_particle) :
  p_jh (ri_whfast r) = Some pj ->
  Z.quot (corrector (ri_wkm r)) 10 = 1 ->
  Z.of_nat (List.length pj) = N r ->
  scratch_ready r ->
  let n := N r in
  let d := dt r in
  let pj1 := ext_inertial_to_jacobi_acc (particles r) pj (particles r) n in
  let m0 := m (p_j_get (particles r) 0) in
  let in_loop (i : nat) := ((1 <=? i) && (i <? List.length pj))%nat in
  let snapshot (i : nat) := corrected (G r) m0 pj1 i (p_j_get pj1 i) in
  reb_integrator_wkm_part2 r =
  after_calls
    [call_inertial_to_jacobi_acc n;
     call_jacobi_to_inertial_pos n; call_update_acceleration;
     call_interaction_step d]
    (finish_step (lazy_restored_state r)) /\
  p_jh (ri_whfast (lazy_snapshot_state r)) = Some pj1 /\
  temp_pj (ri_wkm (lazy_snapshot_state r)) = Some pj1 /\
  allocated_N (ri_wkm (lazy_snapshot_state r)) = n /\
  (exists pj2 tmp2,
     p_jh (ri_whfast (lazy_displaced_state r)) = Some pj2 /\
     temp_pj (ri_wkm (lazy_displaced_state r)) = Some tmp2 /\
     forall i,
       p_j_get tmp2 i = (if in_loop i then snapshot i else p_j_get pj1 i) /\
       p_j_get pj2 i =
       (if in_loop i then displaced d (snapshot i) (p_j_get pj1 i) else p_j_get pj1 i)) /\
  (exists pj3 pj4,
     p_jh (ri_whfast (lazy_kicked_state r)) = Some pj3 /\
     p_jh (ri_whfast (lazy_restored_state r)) = Some pj4 /\
     forall i,
       p_j_get pj4 i =
       (if in_loop i
        then set_pos (x (p_j_get pj1 i)) (y (p_j_get pj1 i)) (z (p_j_get pj1 i))
               (p_j_get pj3 i)
        else p_j_get pj3 i)).
Proof.
  intros Hp Hk Hn Hs. cbv zeta.
  set (pj1 := ext_inertial_to_jacobi_acc (particles r) pj (particles r) (N r)).
  set (m0 := m (p_j_get (particles r) 0)).
  destruct (lazy_snapshot_facts r pj Hp Hn Hs) as (Hp1 & Ht1 & Ha1 & Hps1 & Hl1).
  fold pj1 in Hp1, Ht1, Hl1.
  split; [exact (part2_lazy_run r pj Hp Hk)|].
  split; [exact Hp1|]. split; [exact Ht1|]. split; [exact Ha1|].
  (* the correction loop *)
  destruct (lazy_correction_invariant (dt r) (G r) m0 pj1 pj1 (Z.to_nat (N r) - 1))
    as (pj2 & tmp2 & Hf & Hlp2 & Hlt2 & Htmp2 & Hpj2); [lia|lia|].
  assert (Hd : lazy_displaced_state r =
               set_p_jh (Some pj2) (set_temp_pj (Some tmp2) (lazy_snapshot_state r))).
  { unfold lazy_displaced_state. cbv zeta. rewrite Hps1, Hp1, Ht1. cbn [deref].
    unfold wkm_lazy_correction, loop_indices. fold m0. rewrite Hf. reflexivity. }
  assert (Hrange : forall i,
            ((1 <=? i) && (i <=? Z.to_nat (N r) - 1))%nat =
            ((1 <=? i) && (i <? List.length pj))%nat).
  { intro i. rewrite <- Hn, Nat2Z.id. apply in_loop_range. }
  split.
  { exists pj2, tmp2. rewrite Hd. split; [reflexivity|]. split; [reflexivity|].
    intro i. rewrite Htmp2, Hpj2, Hrange. split; reflexivity. }
  (* the kick and the reset *)
  assert (Hshape : buffer_shape (lazy_kicked_state r) = Some (List.length pj2)).
  { unfold lazy_kicked_state. rewrite exec_all_plain_shape by reflexivity.
    rewrite Hd. reflexivity. }
  assert (Hwkm : temp_pj (ri_wkm (lazy_kicked_state r)) = Some tmp2).
  { unfold lazy_kicked_state. rewrite ri_wkm_exec_all, Hd. reflexivity. }
  unfold buffer_shape in Hshape.
  destruct (p_jh (ri_whfast (lazy_kicked_state r))) as [pj3|] eqn:Hp3; [|discriminate].
  cbn [option_map] in Hshape. injection Hshape as Hl3.
  destruct (lazy_reset_invariant pj3 tmp2 (Z.to_nat (N r) - 1)) as [_ Hreset]; [lia|].
  eexists pj3, _. split; [reflexivity|].
  split.
  { unfold lazy_restored_state. cbv zeta. rewrite Hp3, Hwkm. cbn [store deref temp_pj].
    reflexivity. }
  intro i. unfold wkm_lazy_reset, loop_indices. rewrite Hreset, Hrange.
  destruct ((1 <=? i) && (i <? List.length pj))%nat eqn:Hi; [|reflexivity].
  rewrite Htmp2, Hrange, Hi.
  destruct (corrected_pos (G r) m0 pj1 i (p_j_get pj1 i)) as (-> & -> & ->).
  reflexivity.
Qed.

Lemma part2_lazy_kernel_witness :
  ExternalOk Toy.external /\
  p_jh (ri_whfast (Examples.sim 11)) = Some [Examples.sun; Examples.planet; Examples.moon] /\
  Z.quot (corrector (ri_wkm (Examples.sim 11))) 10 = 1 /\
  Z.of_nat (List.length [Examples.sun; Examples.planet; Examples.moon]) =
  N (Examples.sim 11) /\
  scratch_ready (Examples.sim 11) /\
  calls_of (reb_integrator_wkm_part2 (E:=Toy.external) (Examples.sim 11)) =
  [call_inertial_to_jacobi_acc 3;
   call_jacobi_to_inertial_pos 3; call_update_acceleration;
   call_interaction_step 0.01].
Proof.
  assert (Hs : scratch_ready (Examples.sim 11)).
  { intro H. vm_compute in H. discriminate H. }
  split; [exact toy_external_ok|]. split; [reflexivity|]. split; [reflexivity|].
  split; [reflexivity|]. split; [exact Hs|].
  rewrite (proj1 (part2_lazy_kernel Toy.external toy_external_ok (Examples.sim 11) _
                    eq_refl eq_refl eq_refl Hs)).
  vm_compute. reflexivity.
Defined.

(** C4 as stated fails: with kernel 1 there is no kick with the
    accelerations at hand before the correction pass.  On three bodies the
    calls of [step_part2] are the conversion of the accelerations, the
    recomputation of positions and forces and one kick: one kick in all,
    and the first call is not a kick. *)
Lemma part2_lazy_kernel_single_kick :
  Z.quot (corrector (ri_wkm (Examples.sim 11))) 10 = 1 /\
  calls_of (reb_integrator_wkm_part2 (E:=Toy.external) (Examples.sim 11)) =
  [call_inertial_to_jacobi_acc 3;
   call_jacobi_to_inertial_pos 3; call_update_acceleration;
   call_interaction_step 0.01] /\
  List.length
    (filter is_kick
       (calls_of (reb_integrator_wkm_part2 (E:=Toy.external) (Examples.sim 11))))
  = 1%nat /\
  option_map is_kick
    (hd_error (calls_of (reb_integrator_wkm_part2 (E:=Toy.external) (Examples.sim 11))))
  = Some false.
Proof.
  repeat split; vm_compute; reflexivity.
Qed.

(** ** What the sequencer never touches, and where a step ends *)

Section Effects.

Context {E : External} {HE : ExternalOk E}.

Lemma control_configuration r r' :
  control r' = control r -> configuration r' = configuration r.
Proof.
  intro H. destruct (control_fields _ _ H)
    as (_ & Hdt & _ & HG & HN & Hv & _ & Hc & Hk & Hw).
  unfold configuration. now rewrite Hdt, HG, HN, Hv, Hc, Hk, Hw.
Qed.

Lemma control_scratch r r' : control r' = control r -> scratch r' = scratch r.
Proof.
  intro H. destruct (control_fields _ _ H) as (_ & _ & _ & _ & _ & _ & _ & _ & _ & Hw).
  unfold scratch. now rewrite Hw.
Qed.

(** lines 187-191 *)
Lemma part2_null_run r :
  p_jh (ri_whfast r) = None -> reb_integrator_wkm_part2 r = (tt, r, []).
Proof.
  intro Hp. unfold reb_integrator_wkm_part2. now rewrite !bind_gets, Hp.
Qed.

(** lines 192-232, followed by the end of the step *)
Lemma part2_composition_run r pj :
  p_jh (ri_whfast r) = Some pj ->
  Z.quot (corrector (ri_wkm r)) 10 = 0 ->
  reb_integrator_wkm_part2 r =
  after_calls (composition_kernel_stages (N r) (dt r))
    (finish_step (exec_all (composition_kernel_stages (N r) (dt r)) r)).
Proof.
  intros Hp Hk.
  unfold reb_integrator_wkm_part2, finish_step.
  rewrite !bind_gets, Hp, Hk. cbn [Z.eqb].
  unfold_calls.
  repeat run_step.
  rewrite !dt_exec by reflexivity.
  rewrite !after_calls_app.
  reflexivity.
Qed.

(** neither kernel branch is taken *)
Lemma part2_no_kernel_run r pj :
  p_jh (ri_whfast r) = Some pj ->
  Z.quot (corrector (ri_wkm r)) 10 <> 0 ->
  Z.quot (corrector (ri_wkm r)) 10 <> 1 ->
  reb_integrator_wkm_part2 r = finish_step r.
Proof.
  intros Hp H0 H1. unfold reb_integrator_wkm_part2. rewrite !bind_gets, Hp.
  apply Z.eqb_neq in H0, H1. rewrite H0, H1, bind_ret. reflexivity.
Qed.

(** What [synchronize] leaves of the state it is given. *)
Lemma synchronize_effect r :
  let r' := state_of (reb_integrator_wkm_synchronize r) in
  configuration r' = configuration r /\ scratch r' = scratch r /\
  t r' = t r /\ dt_last_done r' = dt_last_done r /\
  is_synchronized (ri_wkm r') =
  (if is_synchronized (ri_wkm r) =? 0
   then (if keep_unsynchronized (ri_whfast r) =? 0 then 1 else 0)
   else is_synchronized (ri_wkm r)).
Proof.
  cbv zeta. destruct (Z.eqb_spec (is_synchronized (ri_wkm r)) 0) as [H|H].
  - rewrite (synchronize_run r H). cbv zeta. unfold state_of. cbn [fst snd].
    match goal with |- context [exec_all ?l ?s] =>
      assert (Hc := exec_all_control l s); set (r1 := exec_all l s) in *
    end.
    assert (Hcf := control_configuration _ _ Hc).
    assert (Hsc := control_scratch _ _ Hc).
    destruct (control_fields _ _ Hc) as (Ht & _ & Hl & _ & _ & _ & _ & _ & _ & Hw).
    change (configuration (set_gravity_ignore_terms 1 r)) with (configuration r) in Hcf.
    change (scratch (set_gravity_ignore_terms 1 r)) with (scratch r) in Hsc.
    cbn [t dt_last_done ri_wkm set_gravity_ignore_terms] in Ht, Hl, Hw.
    destruct (keep_unsynchronized (ri_whfast r) =? 0).
    + unfold configuration, scratch in *. cbn. cbn in Hcf, Hsc.
      injection Hcf as -> -> -> -> -> -> -> ->. injection Hsc as -> ->.
      rewrite Ht, Hl. repeat split; reflexivity.
    + unfold configuration, scratch in *. cbn. cbn in Hcf, Hsc.
      injection Hcf as -> -> -> -> -> -> -> ->. injection Hsc as -> ->.
      rewrite Ht, Hl, Hw. repeat split; try reflexivity. exact H.
  - rewrite (synchronized_noop r H). unfold state_of. cbn [fst snd].
    repeat split; reflexivity.
Qed.

Lemma control_times r r' :
  control r' = control r -> t r' = t r /\ dt_last_done r' = dt_last_done r.
Proof. intro H. destruct (control_fields _ _ H) as (Ht & _ & Hl & _). now split. Qed.

(** What the end of a step leaves of the state it is given. *)
Lemma finish_step_effect r :
  let r' := state_of (finish_step r) in
  configuration r' = configuration r /\ scratch r' = scratch r /\
  t r' = (t r + dt r)%float /\ dt_last_done r' = dt r /\
  is_synchronized (ri_wkm r') =
  (if safe_mode (ri_wkm r) =? 0 then 0
   else if keep_unsynchronized (ri_whfast r) =? 0 then 1 else 0).
Proof.
  cbv zeta. rewrite finish_step_run. cbv zeta.
  destruct (safe_mode (ri_wkm r) =? 0);
    repeat match goal with
           | |- context [state_of (?a, ?s, ?l)] => change (state_of (a, s, l)) with s
           end.
  - repeat split; reflexivity.
  - destruct (synchronize_effect (set_is_synchronized 0 r)) as (Hc & Hs & _ & _ & Hi).
    cbv zeta in Hc, Hs, Hi.
    set (rs := state_of (reb_integrator_wkm_synchronize (set_is_synchronized 0 r))) in *.
    change (configuration (set_dt_last_done (dt r) (set_t (t r + dt r)%float rs)))
      with (configuration rs).
    change (scratch (set_dt_last_done (dt r) (set_t (t r + dt r)%float rs)))
      with (scratch rs).
    change (ri_wkm (set_dt_last_done (dt r) (set_t (t r + dt r)%float rs)))
      with (ri_wkm rs).
    rewrite Hc, Hs, Hi. repeat split; reflexivity.
Qed.

(** The lazy-implementer kernel leaves the configuration and the times. *)
Lemma lazy_restored_effect r :
  configuration (lazy_restored_state r) = configuration r /\
  t (lazy_restored_state r) = t r /\
  dt_last_done (lazy_restored_state r) = dt_last_done r.
Proof.
  assert (H1 : configuration (lazy_snapshot_state r) = configuration r /\
               t (lazy_snapshot_state r) = t r /\
               dt_last_done (lazy_snapshot_state r) = dt_last_done r).
  { unfold lazy_snapshot_state. cbv zeta.
    destruct (allocated_N (ri_wkm r) =? N r); repeat split; reflexivity. }
  assert (H2 : configuration (lazy_displaced_state r) = configuration r /\
               t (lazy_displaced_state r) = t r /\
               dt_last_done (lazy_displaced_state r) = dt_last_done r).
  { unfold lazy_displaced_state. cbv zeta.
    destruct (wkm_lazy_correction _ _ _ _ _ _) as [[eta p] q]. exact H1. }
  assert (H3 : control (lazy_kicked_state r) = control (lazy_displaced_state r))
    by apply exec_all_control.
  destruct H2 as (Hc & Ht & Hl).
  unfold lazy_restored_state. cbv zeta.
  change (configuration (set_p_jh ?v ?s)) with (configuration s).
  change (t (set_p_jh ?v ?s)) with (t s).
  change (dt_last_done (set_p_jh ?v ?s)) with (dt_last_done s).
  rewrite (control_configuration _ _ H3), Hc.
  destruct (control_times _ _ H3) as [-> ->].
  rewrite Ht, Hl. repeat split; reflexivity.
Qed.

(** What [step_part2] leaves of the state it is given, whatever the
    kernel digit. *)
Lemma part2_effect r pj :
  p_jh (ri_whfast r) = Some pj ->
  let r' := state_of (reb_integrator_wkm_part2 r) in
  configuration r' = configuration r /\
  t r' = (t r + dt r)%float /\ dt_last_done r' = dt r /\
  is_synchronized (ri_wkm r') =
  (if safe_mode (ri_wkm r) =? 0 then 0
   else if keep_unsynchronized (ri_whfast r) =? 0 then 1 else 0).
Proof.
  intros Hp. cbv zeta.
  assert (Hgen : forall s,
    configuration s = configuration r -> t s = t r ->
    state_of (reb_integrator_wkm_part2 r) = state_of (finish_step s) ->
    configuration (state_of (reb_integrator_wkm_part2 r)) = configuration r /\
    t (state_of (reb_integrator_wkm_part2 r)) = (t r + dt r)%float /\
    dt_last_done (state_of (reb_integrator_wkm_part2 r)) = dt r /\
    is_synchronized (ri_wkm (state_of (reb_integrator_wkm_part2 r))) =
    (if safe_mode (ri_wkm r) =? 0 then 0
     else if keep_unsynchronized (ri_whfast r) =? 0 then 1 else 0)).
  { intros s Hc Ht Hst.
    destruct (finish_step_effect s) as (Hc' & _ & Ht' & Hl' & Hi').
    cbv zeta in Hc', Ht', Hl', Hi'.
    rewrite Hst, Hc', Ht', Hl', Hi', Hc, Ht.
    unfold configuration in Hc. injection Hc as -> _ _ _ _ -> _ ->.
    repeat split; reflexivity. }
  destruct (Z.eq_dec (Z.quot (corrector (ri_wkm r)) 10) 0) as [H0|H0];
    [|destruct (Z.eq_dec (Z.quot (corrector (ri_wkm r)) 10) 1) as [H1|H1]].
  - apply (Hgen (exec_all (composition_kernel_stages (N r) (dt r)) r)).
    + apply control_configuration, exec_all_control.
    + apply control_times, exec_all_control.
    + now rewrite (part2_composition_run r pj Hp H0).
  - destruct (lazy_restored_effect r) as (Hc & Ht & _).
    apply (Hgen (lazy_restored_state r) Hc Ht).
    now rewrite (part2_lazy_run r pj Hp H1).
  - apply (Hgen r eq_refl eq_refl).
    now rewrite (part2_no_kernel_run r pj Hp H0 H1).
Qed.

End Effects.

Section MoreRuns.

Context {E : External} {HE : ExternalOk E}.

Lemma rejection_message_some r :
  is_jacobi (coordinates (ri_whfast r)) = false \/
  1 < Z.quot (corrector (ri_wkm r)) 10 ->
  exists msg, rejection_message r = Some msg.
Proof.
  intro H. unfold rejection_message.
  destruct (is_jacobi (coordinates (ri_whfast r))); cbn [negb].
  - destruct H as [H|H]; [discriminate|].
    apply Z.ltb_lt in H. rewrite H. eauto.
  - destruct (0 <? var_config_N r); eauto.
Qed.

Lemma rejection_message_configuration r r' :
  configuration r' = configuration r -> rejection_message r' = rejection_message r.
Proof.
  unfold configuration, rejection_message. intro H.
  injection H as _ _ _ -> -> _ -> _. reflexivity.
Qed.

(** [step_part1] keeps every control field but the force-evaluator flag. *)
Lemma part1_control r :
  control (state_of (reb_integrator_wkm_part1 r)) =
  control (set_gravity_ignore_terms 1 r).
Proof.
  destruct (rejection_message r) as [msg|] eqn:Hm.
  - rewrite (part1_rejected_run r msg Hm). apply (exec_control (call_error msg)).
  - destruct (Z.eq_dec (fst (ext_whfast_init (set_gravity_ignore_terms 1 r))) 0)
      as [Hi|Hi].
    + rewrite (part1_accepted_run r Hm Hi). cbv zeta.
      rewrite bind_run, perform_all_run. unfold after_calls.
      unfold state_of at 1. cbn [fst snd].
      rewrite exec_all_control. apply prepare_step_control.
    + rewrite (part1_init_failed_run r Hm Hi). apply (exec_control call_whfast_init).
Qed.

End MoreRuns.

Lemma toy_failing_init_ok : ExternalOk toy_failing_init.
Proof.
  constructor; cbn; intros; try reflexivity.
  - apply toy_on_buffer_shape. intros [|p l]; cbn; [|rewrite length_map]; reflexivity.
  - apply toy_on_buffer_shape. intros [|p l]; reflexivity.
  - apply toy_on_buffer_shape. intro l. now rewrite length_map, toy_overlay_length.
  - apply toy_overlay_length.
Defined.

(** ** Further properties of the sequencer *)

(** X1: a step that [step_part1] rejects on a simulation whose Coordinate
    Buffer was never allocated is inert as a whole: [step_part2] on the
    state [step_part1] left returns it unchanged and makes no call, so the
    time is not advanced and [dt_last_done] and the particles stay as they
    were. *)
Theorem rejected_step_is_inert (E : External) (HE : ExternalOk E) (r : reb_simulation) :
  p_jh (ri_whfast r) = None ->
  is_jacobi (coordinates (ri_whfast r)) = false \/
  1 < Z.quot (corrector (ri_wkm r)) 10 ->
  let r1 := state_of (reb_integrator_wkm_part1 r) in
  reb_integrator_wkm_part2 r1 = (tt, r1, []) /\
  t r1 = t r /\ dt_last_done r1 = dt_last_done r /\ particles r1 = particles r.
Proof.
  intros Hp Hrej r1.
  destruct (rejection_message_some r Hrej) as [msg Hm].
  assert (Hr1 : r1 = ext_error msg (set_gravity_ignore_terms 1 r)).
  { subst r1. now rewrite (part1_rejected_run r msg Hm). }
  rewrite error_only_messages in Hr1.
  split.
  - apply part2_null_run. rewrite Hr1. exact Hp.
  - rewrite Hr1. repeat split; reflexivity.
Qed.

Lemma rejected_step_is_inert_witness :
  ExternalOk Toy.external /\
  p_jh (ri_whfast (set_p_jh None Examples.sim_heliocentric)) = None /\
  reb_integrator_wkm_part2 (E:=Toy.external)
    (state_of (reb_integrator_wkm_part1 (E:=Toy.external)
                 (set_p_jh None Examples.sim_heliocentric))) =
  (tt,
   state_of (reb_integrator_wkm_part1 (E:=Toy.external)
               (set_p_jh None Examples.sim_heliocentric)), []).
Proof.
  split; [exact toy_external_ok|]. split; [reflexivity|].
  exact (proj1 (rejected_step_is_inert Toy.external toy_external_ok
                  (set_p_jh None Examples.sim_heliocentric) eq_refl
                  (or_introl eq_refl))).
Defined.

(** X2: when the configuration checks pass but the WHFast initialisation
    reports an error, [step_part1] stops there: its only call is the
    initialisation, no drift, kick or transformation is applied, and the
    state is the one the initialisation left, with the force-evaluator flag
    set; the times, the particle count and the WKM configuration are
    unchanged.  If the initialisation left no Coordinate Buffer, the
    [step_part2] that follows does nothing. *)
Theorem part1_init_failure (E : External) (HE : ExternalOk E) (r : reb_simulation) :
  rejection_message r = None ->
  fst (ext_whfast_init (set_gravity_ignore_terms 1 r)) <> 0 ->
  let r1 := state_of (reb_integrator_wkm_part1 r) in
  reb_integrator_wkm_part1 r =
  (tt, snd (ext_whfast_init (set_gravity_ignore_terms 1 r)), [call_whfast_init]) /\
  control r1 = control (set_gravity_ignore_terms 1 r) /\
  (p_jh (ri_whfast r1) = None -> reb_integrator_wkm_part2 r1 = (tt, r1, [])).
Proof.
  intros Hm Hi r1. split; [exact (part1_init_failed_run r Hm Hi)|].
  split; [apply part1_control | apply part2_null_run].
Qed.

Lemma part1_init_failure_witness :
  ExternalOk toy_failing_init /\
  rejection_message (Examples.sim_synchronized 1) = None /\
  fst (@ext_whfast_init toy_failing_init
         (set_gravity_ignore_terms 1 (Examples.sim_synchronized 1))) <> 0 /\
  reb_integrator_wkm_part1 (E:=toy_failing_init) (Examples.sim_synchronized 1) =
  (tt, set_gravity_ignore_terms 1 (Examples.sim_synchronized 1), [call_whfast_init]).
Proof.
  assert (H : fst (@ext_whfast_init toy_failing_init
                     (set_gravity_ignore_terms 1 (Examples.sim_synchronized 1))) <> 0).
  { vm_compute. discriminate. }
  split; [exact toy_failing_init_ok|]. split; [reflexivity|]. split; [exact H|].
  exact (proj1 (part1_init_failure toy_failing_init toy_failing_init_ok
                  (Examples.sim_synchronized 1) eq_refl H)).
Defined.

(** X3: [step_part1] never advances the time and never changes
    [dt_last_done], the time step, the particle count, the coordinate
    scheme or any field of the WKM configuration: in particular it leaves
    [is_synchronized] and the Scratch Buffer as they were, on the accepted
    and on the rejected paths alike. *)
Theorem part1_frame (E : External) (HE : ExternalOk E) (r : reb_simulation) :
  let r' := state_of (reb_integrator_wkm_part1 r) in
  t r' = t r /\ dt_last_done r' = dt_last_done r /\
  configuration r' = configuration r /\ ri_wkm r' = ri_wkm r.
Proof.
  cbv zeta. assert (Hc := part1_control r).
  destruct (control_times _ _ Hc) as [Ht Hl].
  split; [exact Ht|]. split; [exact Hl|].
  split; [exact (control_configuration _ _ Hc)|].
  now apply control_fields in Hc.
Qed.

Lemma part1_frame_witness :
  ExternalOk Toy.external /\
  ri_wkm (state_of (reb_integrator_wkm_part1 (E:=Toy.external)
                      (Examples.sim_synchronized 12))) =
  mk_wkm 12 0 1 None 0.
Proof.
  split; [exact toy_external_ok|].
  exact (proj2 (proj2 (proj2 (part1_frame Toy.external toy_external_ok
                                (Examples.sim_synchronized 12))))).
Defined.

(** X4: [synchronize] never changes the time, [dt_last_done], the time
    step, the particle count, the coordinate scheme, the corrector word,
    the safe mode or the Scratch Buffer.  Of [is_synchronized] it makes 1
    when it was 0 and the keep-unsynchronized policy is off, and leaves it
    otherwise. *)
Theorem synchronize_frame (E : External) (HE : ExternalOk E) (r : reb_simulation) :
  let r' := state_of (reb_integrator_wkm_synchronize r) in
  configuration r' = configuration r /\ scratch r' = scratch r /\
  t r' = t r /\ dt_last_done r' = dt_last_done r /\
  is_synchronized (ri_wkm r') =
  (if is_synchronized (ri_wkm r) =? 0
   then (if keep_unsynchronized (ri_whfast r) =? 0 then 1 else 0)
   else is_synchronized (ri_wkm r)).
Proof.
  cbv zeta. destruct (synchronize_effect r) as (Hc & Hs & Ht & Hl & Hi).
  repeat split; assumption.
Qed.

Lemma synchronize_frame_witness :
  ExternalOk Toy.external /\
  is_synchronized
    (ri_wkm (state_of (reb_integrator_wkm_synchronize (E:=Toy.external)
                         (Examples.sim 2)))) = 1.
Proof.
  split; [exact toy_external_ok|].
  exact (proj2 (proj2 (proj2 (proj2 (synchronize_frame Toy.external toy_external_ok
                                       (Examples.sim 2)))))).
Defined.

(** X5: without the keep-unsynchronized policy [synchronize] is
    idempotent: a second call right after the first makes no external call
    and returns the state unchanged, whatever the state of the first
    call. *)
Theorem synchronize_idempotent (E : External) (HE : ExternalOk E) (r : reb_simulation) :
  keep_unsynchronized (ri_whfast r) = 0 ->
  let r' := state_of (reb_integrator_wkm_synchronize r) in
  reb_integrator_wkm_synchronize r' = (tt, r', []).
Proof.
  intros Hk r'. apply synchronized_noop.
  destruct (synchronize_effect r) as (_ & _ & _ & _ & Hi). cbv zeta in Hi.
  fold r' in Hi. rewrite Hi, Hk. cbn [Z.eqb].
  destruct (Z.eqb_spec (is_synchronized (ri_wkm r)) 0); [discriminate|assumption].
Qed.

Lemma synchronize_idempotent_witness :
  ExternalOk Toy.external /\
  keep_unsynchronized (ri_whfast (Examples.sim 2)) = 0 /\
  calls_of
    (reb_integrator_wkm_synchronize (E:=Toy.external)
       (state_of (reb_integrator_wkm_synchronize (E:=Toy.external) (Examples.sim 2))))
  = [].
Proof.
  split; [exact toy_external_ok|]. split; [reflexivity|].
  exact (f_equal calls_of
           (synchronize_idempotent Toy.external toy_external_ok (Examples.sim 2) eq_refl)).
Defined.

(** X6: whenever the Coordinate Buffer is present, and whatever the kernel
    digit, [step_part2] advances the time by exactly [dt], records [dt] as
    the last completed step, and leaves the time step, the particle count,
    the coordinate scheme, the corrector word and the safe mode unchanged.
    It ends unsynchronized without safe mode; under safe mode it ends
    synchronized, unless the keep-unsynchronized policy is on. *)
Theorem part2_frame (E : External) (HE : ExternalOk E)
  (r : reb_simulation) (pj : list reb_particle) :
  p_jh (ri_whfast r) = Some pj ->
  let r' := state_of (reb_integrator_wkm_part2 r) in
  configuration r' = configuration r /\
  t r' = (t r + dt r)%float /\ dt_last_done r' = dt r /\
  is_synchronized (ri_wkm r') =
  (if safe_mode (ri_wkm r) =? 0 then 0
   else if keep_unsynchronized (ri_whfast r) =? 0 then 1 else 0).
Proof.
  intro Hp. cbv zeta. destruct (part2_effect r pj Hp) as (Hc & Ht & Hl & Hi).
  repeat split; assumption.
Qed.

Lemma part2_frame_witness :
  ExternalOk Toy.external /\
  p_jh (ri_whfast (Examples.sim 11)) = Some [Examples.sun; Examples.planet; Examples.moon] /\
  t (state_of (reb_integrator_wkm_part2 (E:=Toy.external) (Examples.sim 11))) = 0.01%float /\
  is_synchronized
    (ri_wkm (state_of (reb_integrator_wkm_part2 (E:=Toy.external) (Examples.sim 11)))) = 0.
Proof.
  split; [exact toy_external_ok|]. split; [reflexivity|].
  destruct (part2_frame Toy.external toy_external_ok (Examples.sim 11) _ eq_refl)
    as (_ & Ht & _ & Hi).
  split; [exact Ht | exact Hi].
Defined.

Section LazyFacts.

Context {E : External} {HE : ExternalOk E}.

(** lines 256-272 on the snapshot: the two buffers after the correction
    loop. *)
Lemma lazy_displaced_facts r pj :
  p_jh (ri_whfast r) = Some pj ->
  Z.of_nat (List.length pj) = N r ->
  scratch_ready r ->
  let pj1 := ext_inertial_to_jacobi_acc (particles r) pj (particles r) (N r) in
  let m0 := m (p_j_get (particles r) 0) in
  exists pj2 tmp2,
    lazy_displaced_state r =
      set_p_jh (Some pj2) (set_temp_pj (Some tmp2) (lazy_snapshot_state r)) /\
    List.length pj2 = List.length pj /\ List.length tmp2 = List.length pj /\
    (forall i,
       p_j_get tmp2 i =
       if ((1 <=? i) && (i <? List.length pj))%nat
       then corrected (G r) m0 pj1 i (p_j_get pj1 i) else p_j_get pj1 i) /\
    (forall i,
       p_j_get pj2 i =
       if ((1 <=? i) && (i <? List.length pj))%nat
       then displaced (dt r) (corrected (G r) m0 pj1 i (p_j_get pj1 i)) (p_j_get pj1 i)
       else p_j_get pj1 i).
Proof.
  intros Hp Hn Hs. cbv zeta.
  set (pj1 := ext_inertial_to_jacobi_acc (particles r) pj (particles r) (N r)).
  set (m0 := m (p_j_get (particles r) 0)).
  destruct (lazy_snapshot_facts r pj Hp Hn Hs) as (Hp1 & Ht1 & Ha1 & Hps1 & Hl1).
  fold pj1 in Hp1, Ht1, Hl1.
  destruct (lazy_correction_invariant (dt r) (G r) m0 pj1 pj1 (Z.to_nat (N r) - 1))
    as (pj2 & tmp2 & Hf & Hlp2 & Hlt2 & Htmp2 & Hpj2); [lia|lia|].
  exists pj2, tmp2.
  split.
  { unfold lazy_displaced_state. cbv zeta. rewrite Hps1, Hp1, Ht1. cbn [deref].
    unfold wkm_lazy_correction, loop_indices. fold m0. rewrite Hf. reflexivity. }
  split; [congruence|]. split; [congruence|].
  assert (Hrange : forall i,
            ((1 <=? i) && (i <=? Z.to_nat (N r) - 1))%nat =
            ((1 <=? i) && (i <? List.length pj))%nat).
  { intro i. rewrite <- Hn, Nat2Z.id. apply in_loop_range. }
  split; intro i; [rewrite Htmp2 | rewrite Hpj2]; now rewrite Hrange.
Qed.

(** lines 275-284: the buffers after the kick and after the reset. *)
Lemma lazy_restored_facts r pj :
  p_jh (ri_whfast r) = Some pj ->
  Z.of_nat (List.length pj) = N r ->
  scratch_ready r ->
  let pj1 := ext_inertial_to_jacobi_acc (particles r) pj (particles r) (N r) in
  exists pj3 tmp2,
    p_jh (ri_whfast (lazy_kicked_state r)) = Some pj3 /\
    List.length pj3 = List.length pj /\
    scratch (lazy_kicked_state r) = (Some tmp2, N r) /\
    List.length tmp2 = List.length pj /\
    lazy_restored_state r =
      set_p_jh (Some (wkm_lazy_reset (N r) pj3 tmp2)) (lazy_kicked_state r) /\
    forall i,
      p_j_get (wkm_lazy_reset (N r) pj3 tmp2) i =
      if ((1 <=? i) && (i <? List.length pj))%nat
      then set_pos (x (p_j_get pj1 i)) (y (p_j_get pj1 i)) (z (p_j_get pj1 i))
             (p_j_get pj3 i)
      else p_j_get pj3 i.
Proof.
  intros Hp Hn Hs. cbv zeta.
  set (pj1 := ext_inertial_to_jacobi_acc (particles r) pj (particles r) (N r)).
  destruct (lazy_snapshot_facts r pj Hp Hn Hs) as (_ & _ & Ha1 & _ & _).
  destruct (lazy_displaced_facts r pj Hp Hn Hs)
    as (pj2 & tmp2 & Hd & Hl2 & Hlt2 & Htmp2 & _).
  fold pj1 in Htmp2.
  assert (Hshape : buffer_shape (lazy_kicked_state r) = Some (List.length pj2)).
  { unfold lazy_kicked_state. rewrite exec_all_plain_shape by reflexivity.
    rewrite Hd. reflexivity. }
  assert (Hwkm : scratch (lazy_kicked_state r) = (Some tmp2, N r)).
  { unfold lazy_kicked_state, scratch. rewrite ri_wkm_exec_all, Hd, <- Ha1.
    reflexivity. }
  unfold buffer_shape in Hshape.
  destruct (p_jh (ri_whfast (lazy_kicked_state r))) as [pj3|] eqn:Hp3; [|discriminate].
  cbn [option_map] in Hshape. injection Hshape as Hl3.
  exists pj3, tmp2. split; [reflexivity|]. split; [congruence|].
  split; [exact Hwkm|]. split; [exact Hlt2|].
  split.
  { unfold lazy_restored_state. cbv zeta. rewrite Hp3.
    unfold scratch in Hwkm. injection Hwkm as Ht _. rewrite Ht. reflexivity. }
  destruct (lazy_reset_invariant pj3 tmp2 (Z.to_nat (N r) - 1)) as [_ Hreset]; [lia|].
  assert (Hrange : forall i,
            ((1 <=? i) && (i <=? Z.to_nat (N r) - 1))%nat =
            ((1 <=? i) && (i <? List.length pj))%nat).
  { intro i. rewrite <- Hn, Nat2Z.id. apply in_loop_range. }
  intro i. unfold wkm_lazy_reset, loop_indices. rewrite Hreset, Hrange.
  destruct ((1 <=? i) && (i <? List.length pj))%nat eqn:Hi; [|reflexivity].
  rewrite Htmp2, Hi.
  destruct (corrected_pos (G r) (m (p_j_get (particles r) 0)) pj1 i (p_j_get pj1 i))
    as (-> & -> & ->).
  reflexivity.
Qed.

(** Without safe mode the end of a step makes no call and writes only
    [is_synchronized], [t] and [dt_last_done]. *)
Lemma finish_step_plain r :
  safe_mode (ri_wkm r) = 0 ->
  finish_step r =
  (tt, set_dt_last_done (dt r) (set_t (t r + dt r)%float (set_is_synchronized 0 r)), []).
Proof. intro H. rewrite finish_step_run. cbv zeta. now rewrite H. Qed.

Lemma lazy_restored_safe_mode r :
  safe_mode (ri_wkm (lazy_restored_state r)) = safe_mode (ri_wkm r).
Proof.
  destruct (lazy_restored_effect r) as (Hc & _).
  unfold configuration in Hc. now injection Hc.
Qed.

End LazyFacts.

(** X7: how two steps compose.  On the state a [step_part2] leaves, an
    accepted [step_part1] goes the unsynchronized way (one full drift by
    [dt], no corrector) exactly when the previous step ran without safe
    mode or under the keep-unsynchronized policy; after a step in safe mode
    without that policy it applies the pre-step correctors and the leading
    drift of the kernel. *)
Theorem part1_after_part2 (E : External) (HE : ExternalOk E)
  (r : reb_simulation) (pj : list reb_particle) :
  p_jh (ri_whfast r) = Some pj ->
  rejection_message r = None ->
  let r1 := state_of (reb_integrator_wkm_part2 r) in
  fst (ext_whfast_init (set_gravity_ignore_terms 1 r1)) = 0 ->
  let c := Z.rem (corrector (ri_wkm r)) 10 in
  let k := Z.quot (corrector (ri_wkm r)) 10 in
  reb_integrator_wkm_part1 r1 =
  (prepare_step ;;
   perform_all
     ((if (safe_mode (ri_wkm r) =? 0) || negb (keep_unsynchronized (ri_whfast r) =? 0)
       then [call_kepler_step (dt r); call_com_step (dt r)]
       else corrector_driver_stages false c (N r) (dt r) ++ leading_drift k (dt r)) ++
      [call_whfast_to_inertial]))%wkm r1.
Proof.
  intros Hp Hm r1 Hi c k.
  destruct (part2_effect r pj Hp) as (Hc & _ & _ & Hs). cbv zeta in Hc, Hs.
  fold r1 in Hc, Hs.
  assert (Hm1 : rejection_message r1 = None)
    by (rewrite (rejection_message_configuration _ _ Hc); exact Hm).
  rewrite (part1_accepted_run r1 Hm1 Hi). cbv zeta. rewrite Hs.
  unfold configuration in Hc. injection Hc as -> _ -> _ _ _ -> _.
  fold c k.
  destruct (safe_mode (ri_wkm r) =? 0); [reflexivity|].
  destruct (keep_unsynchronized (ri_whfast r) =? 0); reflexivity.
Qed.

Lemma part1_after_part2_witness :
  ExternalOk Toy.external /\
  calls_of
    (reb_integrator_wkm_part1 (E:=Toy.external)
       (state_of (reb_integrator_wkm_part2 (E:=Toy.external) (Examples.sim 1)))) =
  [call_whfast_init; call_kepler_step 0.01; call_com_step 0.01; call_whfast_to_inertial].
Proof.
  split; [exact toy_external_ok|].
  rewrite (part1_after_part2 Toy.external toy_external_ok (Examples.sim 1) _
             eq_refl eq_refl eq_refl).
  vm_compute. reflexivity.
Defined.

(** X8: the Scratch Buffer invariant.  [step_part2] with kernel 1, entered
    with a Coordinate Buffer of [N] particles and a Scratch Buffer that is
    either of the recorded size or recorded with another size than [N],
    leaves a Scratch Buffer of exactly [N] particles with [allocated_N = N],
    so the invariant holds again for the next step; with any other kernel
    digit it leaves the Scratch Buffer and its recorded size untouched. *)
Theorem part2_scratch_invariant (E : External) (HE : ExternalOk E)
  (r : reb_simulation) (pj : list reb_particle) :
  p_jh (ri_whfast r) = Some pj ->
  let r' := state_of (reb_integrator_wkm_part2 r) in
  (Z.quot (corrector (ri_wkm r)) 10 <> 1 -> scratch r' = scratch r) /\
  (Z.quot (corrector (ri_wkm r)) 10 = 1 ->
   Z.of_nat (List.length pj) = N r -> scratch_ready r ->
   allocated_N (ri_wkm r') = N r' /\
   (exists l, temp_pj (ri_wkm r') = Some l /\ Z.of_nat (List.length l) = N r') /\
   scratch_ready r').
Proof.
  intros Hp r'. split.
  - intro H1. subst r'.
    destruct (Z.eq_dec (Z.quot (corrector (ri_wkm r)) 10) 0) as [H0|H0].
    + rewrite (part2_composition_run r pj Hp H0).
      change (state_of (after_calls ?l ?o)) with (state_of o).
      destruct (finish_step_effect
                  (exec_all (composition_kernel_stages (N r) (dt r)) r)) as (_ & Hs & _).
      cbv zeta in Hs. rewrite Hs. apply control_scratch, exec_all_control.
    + rewrite (part2_no_kernel_run r pj Hp H0 H1).
      now destruct (finish_step_effect r) as (_ & Hs & _).
  - intros H1 Hn Hs.
    destruct (part2_effect r pj Hp) as (Hc & _). cbv zeta in Hc. fold r' in Hc.
    assert (HN : N r' = N r) by (unfold configuration in Hc; now injection Hc).
    assert (Hsc : scratch r' = scratch (lazy_kicked_state r)).
    { subst r'. rewrite (part2_lazy_run r pj Hp H1).
      change (state_of (after_calls ?l ?o)) with (state_of o).
      destruct (finish_step_effect (lazy_restored_state r)) as (_ & Hf & _).
      cbv zeta in Hf. rewrite Hf. reflexivity. }
    destruct (lazy_restored_facts r pj Hp Hn Hs)
      as (pj3 & tmp2 & _ & _ & Hk & Hl & _).
    rewrite Hk in Hsc. unfold scratch in Hsc. injection Hsc as Ht Ha.
    rewrite HN. split; [exact Ha|].
    assert (Hex : exists l, temp_pj (ri_wkm r') = Some l /\ Z.of_nat (List.length l) = N r).
    { exists tmp2. split; [exact Ht | congruence]. }
    split; [exact Hex|]. intros _. rewrite HN. exact Hex.
Qed.

Lemma part2_scratch_invariant_witness :
  ExternalOk Toy.external /\
  p_jh (ri_whfast (Examples.sim 11)) = Some [Examples.sun; Examples.planet; Examples.moon] /\
  scratch_ready (Examples.sim 11) /\
  allocated_N (ri_wkm (Examples.sim 11)) = 0 /\
  allocated_N
    (ri_wkm (state_of (reb_integrator_wkm_part2 (E:=Toy.external) (Examples.sim 11)))) = 3.
Proof.
  assert (Hs : scratch_ready (Examples.sim 11)).
  { intro H. vm_compute in H. discriminate H. }
  split; [exact toy_external_ok|]. split; [reflexivity|]. split; [exact Hs|].
  split; [reflexivity|].
  destruct (proj2 (part2_scratch_invariant Toy.external toy_external_ok (Examples.sim 11)
                     _ eq_refl) eq_refl eq_refl Hs) as (Ha & _).
  rewrite Ha. vm_compute. reflexivity.
Defined.

(** X9: the displacement of the lazy-implementer kernel is a round trip.
    Without safe mode, and with an acceleration conversion that leaves the
    Jacobi positions alone, [step_part2] with kernel 1 ends with the Jacobi
    positions of the particles [1 <= i < N] exactly as they were on entry:
    the displaced positions are only ever seen by the force evaluation. *)
Theorem lazy_kernel_positions_round_trip (E : External) (HE : ExternalOk E)
  (r : reb_simulation) (pj : list reb_particle) :
  p_jh (ri_whfast r) = Some pj ->
  Z.quot (corrector (ri_wkm r)) 10 = 1 ->
  Z.of_nat (List.length pj) = N r ->
  scratch_ready r ->
  safe_mode (ri_wkm r) = 0 ->
  (forall i,
     let q := p_j_get (ext_inertial_to_jacobi_acc (particles r) pj (particles r) (N r)) i in
     x q = x (p_j_get pj i) /\ y q = y (p_j_get pj i) /\ z q = z (p_j_get pj i)) ->
  exists pj4,
    p_jh (ri_whfast (state_of (reb_integrator_wkm_part2 r))) = Some pj4 /\
    List.length pj4 = List.length pj /\
    forall i, (1 <= i < List.length pj)%nat ->
      x (p_j_get pj4 i) = x (p_j_get pj i) /\
      y (p_j_get pj4 i) = y (p_j_get pj i) /\
      z (p_j_get pj4 i) = z (p_j_get pj i).
Proof.
  intros Hp Hk Hn Hs Hsm Hacc.
  destruct (lazy_restored_facts r pj Hp Hn Hs)
    as (pj3 & tmp2 & Hp3 & Hl3 & _ & _ & Hr & Hpt).
  exists (wkm_lazy_reset (N r) pj3 tmp2).
  split.
  { rewrite (part2_lazy_run r pj Hp Hk).
    change (state_of (after_calls ?l ?o)) with (state_of o).
    rewrite finish_step_plain by (rewrite lazy_restored_safe_mode; exact Hsm).
    unfold state_of. cbn [fst snd]. rewrite Hr. reflexivity. }
  split.
  { unfold wkm_lazy_reset, loop_indices.
    destruct (lazy_reset_invariant pj3 tmp2 (Z.to_nat (N r) - 1)) as [Hl _]; [lia|].
    cbv zeta in Hl. rewrite Hl. exact Hl3. }
  intros i Hi. rewrite Hpt.
  replace ((1 <=? i) && (i <? List.length pj))%nat with true.
  - cbn [x y z set_pos]. apply Hacc.
  - symmetry. apply andb_true_intro. split; [apply Nat.leb_le | apply Nat.ltb_lt]; lia.
Qed.

Lemma lazy_kernel_positions_round_trip_witness :
  ExternalOk Toy.external /\
  Z.quot (corrector (ri_wkm (Examples.sim 11))) 10 = 1 /\
  safe_mode (ri_wkm (Examples.sim 11)) = 0 /\
  exists pj4,
    p_jh (ri_whfast
            (state_of (reb_integrator_wkm_part2 (E:=Toy.external) (Examples.sim 11)))) =
    Some pj4 /\
    List.length pj4 = 3%nat /\
    forall i, (1 <= i < 3)%nat ->
      x (p_j_get pj4 i) = x (p_j_get [Examples.sun; Examples.planet; Examples.moon] i) /\
      y (p_j_get pj4 i) = y (p_j_get [Examples.sun; Examples.planet; Examples.moon] i) /\
      z (p_j_get pj4 i) = z (p_j_get [Examples.sun; Examples.planet; Examples.moon] i).
Proof.
  assert (Hs : scratch_ready (Examples.sim 11)).
  { intro H. vm_compute in H. discriminate H. }
  split; [exact toy_external_ok|]. split; [reflexivity|]. split; [reflexivity|].
  refine (lazy_kernel_positions_round_trip Toy.external toy_external_ok (Examples.sim 11)
            _ eq_refl eq_refl eq_refl Hs eq_refl _).
  intros [|[|[|i]]]; repeat split; reflexivity.
Defined.

Section Counting.

Context {E : External} {HE : ExternalOk E}.

Lemma store_deref_id (s : reb_simulation) :
  set_p_jh (store (p_jh (ri_whfast s)) (deref (p_jh (ri_whfast s)))) s = s.
Proof.
  destruct s as [? ? ? ? ? ? ? ? [? ? ? [l|]] ? ?]; reflexivity.
Qed.

Lemma store_temp_id (s : reb_simulation) :
  set_temp_pj (store (temp_pj (ri_wkm s)) (deref (temp_pj (ri_wkm s)))) s = s.
Proof.
  destruct s as [? ? ? ? ? ? ? ? ? [? ? ? [l|] ?] ?]; reflexivity.
Qed.

Lemma part2_calls_without_safe_mode r pj :
  p_jh (ri_whfast r) = Some pj ->
  safe_mode (ri_wkm r) = 0 ->
  let k := Z.quot (corrector (ri_wkm r)) 10 in
  calls_of (reb_integrator_wkm_part2 r) =
  if k =? 0 then composition_kernel_stages (N r) (dt r)
  else if k =? 1 then
    [call_inertial_to_jacobi_acc (N r)] ++ reposition_reforce (N r) ++ kick (dt r)
  else [].
Proof.
  intros Hp Hs k. subst k.
  destruct (Z.eqb_spec (Z.quot (corrector (ri_wkm r)) 10) 0) as [H0|H0];
    [|destruct (Z.eqb_spec (Z.quot (corrector (ri_wkm r)) 10) 1) as [H1|H1]].
  - rewrite (part2_composition_run r pj Hp H0), finish_step_plain.
    + unfold calls_of, after_calls. cbn [fst snd]. apply app_nil_r.
    + rewrite ri_wkm_exec_all. exact Hs.
  - rewrite (part2_lazy_run r pj Hp H1), finish_step_plain.
    + unfold calls_of, after_calls. cbn [fst snd]. apply app_nil_r.
    + rewrite lazy_restored_safe_mode. exact Hs.
  - rewrite (part2_no_kernel_run r pj Hp H0 H1), finish_step_plain by exact Hs.
    reflexivity.
Qed.

End Counting.

(** X10: the smallest system.  With a single particle the loops of the
    lazy-implementer kernel run over no index: nothing is displaced and
    nothing is reset, so [step_part2] with kernel 1 amounts to the
    snapshot, the three calls of an ordinary kick and the end of the
    step. *)
Theorem lazy_kernel_single_particle (E : External) (HE : ExternalOk E)
  (r : reb_simulation) (pj : list reb_particle) :
  p_jh (ri_whfast r) = Some pj ->
  Z.quot (corrector (ri_wkm r)) 10 = 1 ->
  N r = 1 ->
  lazy_displaced_state r = lazy_snapshot_state r /\
  lazy_restored_state r = lazy_kicked_state r /\
  reb_integrator_wkm_part2 r =
  after_calls
    [call_inertial_to_jacobi_acc (N r);
     call_jacobi_to_inertial_pos (N r); call_update_acceleration;
     call_interaction_step (dt r)]
    (finish_step
       (exec_all
          [call_jacobi_to_inertial_pos (N r); call_update_acceleration;
           call_interaction_step (dt r)]
          (lazy_snapshot_state r))).
Proof.
  intros Hp Hk HN.
  assert (Hloop : loop_indices (N r) = []).
  { unfold loop_indices. rewrite HN. reflexivity. }
  assert (Hd : lazy_displaced_state r = lazy_snapshot_state r).
  { unfold lazy_displaced_state, wkm_lazy_correction. cbv zeta. rewrite Hloop.
    cbn [fold_left]. now rewrite store_temp_id, store_deref_id. }
  assert (Hr : lazy_restored_state r = lazy_kicked_state r).
  { unfold lazy_restored_state, wkm_lazy_reset. cbv zeta. rewrite Hloop.
    cbn [fold_left]. apply store_deref_id. }
  split; [exact Hd|]. split; [exact Hr|].
  rewrite (part2_lazy_run r pj Hp Hk), Hr. unfold lazy_kicked_state. rewrite Hd.
  reflexivity.
Qed.

Lemma lazy_kernel_single_particle_witness :
  ExternalOk Toy.external /\
  Z.quot (corrector (ri_wkm (one_body 11))) 10 = 1 /\
  N (one_body 11) = 1 /\
  p_jh (ri_whfast (lazy_displaced_state (E:=Toy.external) (one_body 11))) =
  Some [Examples.sun].
Proof.
  split; [exact toy_external_ok|]. split; [reflexivity|]. split; [reflexivity|].
  rewrite (proj1 (lazy_kernel_single_particle Toy.external toy_external_ok
                    (one_body 11) _ eq_refl eq_refl eq_refl)).
  reflexivity.
Defined.

(** X11: [step_part1] evaluates no force and applies no kick unless it
    runs the correctors: when the step is accepted and the state is
    unsynchronized, or the corrector digit is 0, none of its calls is a
    force evaluation or a kick. *)
Theorem part1_no_force_evaluation (E : External) (HE : ExternalOk E)
  (r : reb_simulation) :
  rejection_message r = None ->
  fst (ext_whfast_init (set_gravity_ignore_terms 1 r)) = 0 ->
  is_synchronized (ri_wkm r) = 0 \/ Z.rem (corrector (ri_wkm r)) 10 = 0 ->
  filter is_force (calls_of (reb_integrator_wkm_part1 r)) = [] /\
  filter is_kick (calls_of (reb_integrator_wkm_part1 r)) = [].
Proof.
  intros Hm Hi Hc.
  rewrite (part1_accepted_run r Hm Hi). cbv zeta.
  rewrite bind_run, perform_all_run, prepare_step_run. cbv zeta.
  assert (Hst : forall f,
    (f = is_force \/ f = is_kick) ->
    filter f
      ((if is_synchronized (ri_wkm r) =? 0 then drift (dt r)
        else corrector_driver_stages false (Z.rem (corrector (ri_wkm r)) 10) (N r) (dt r) ++
             leading_drift (Z.quot (corrector (ri_wkm r)) 10) (dt r)) ++
       [call_whfast_to_inertial]) = []).
  { intros f Hf.
    assert (Hlead : filter f (leading_drift (Z.quot (corrector (ri_wkm r)) 10) (dt r)) = []).
    { unfold leading_drift.
      destruct (_ =? 0); [|destruct (_ =? 1)]; destruct Hf as [-> | ->]; reflexivity. }
    rewrite filter_app.
    destruct Hc as [Hs | Hz].
    - rewrite Hs. destruct Hf as [-> | ->]; reflexivity.
    - destruct (is_synchronized (ri_wkm r) =? 0).
      + destruct Hf as [-> | ->]; reflexivity.
      + unfold corrector_driver_stages. rewrite Hz. cbn [Z.eqb app].
        rewrite Hlead. destruct Hf as [-> | ->]; reflexivity. }
  destruct (_ || _); unfold calls_of, after_calls; cbn [fst snd];
    split; rewrite filter_app, Hst by auto; reflexivity.
Qed.

Lemma part1_no_force_evaluation_witness :
  ExternalOk Toy.external /\
  rejection_message (Examples.sim 12) = None /\
  (is_synchronized (ri_wkm (Examples.sim 12)) = 0 \/
   Z.rem (corrector (ri_wkm (Examples.sim 12))) 10 = 0) /\
  filter is_force (calls_of (reb_integrator_wkm_part1 (E:=Toy.external) (Examples.sim 12)))
  = [].
Proof.
  split; [exact toy_external_ok|]. split; [reflexivity|].
  split; [left; reflexivity|].
  exact (proj1 (part1_no_force_evaluation Toy.external toy_external_ok (Examples.sim 12)
                  eq_refl eq_refl (or_introl eq_refl))).
Defined.

(** X12: the cost of [step_part2] without safe mode, with the Coordinate
    Buffer present: the composition kernel makes 4 force evaluations, 5
    kicks and 8 drift calls, the lazy-implementer kernel 1 force
    evaluation, 1 kick and no drift, and any other kernel digit no call at
    all. *)
Theorem part2_cost (E : External) (HE : ExternalOk E)
  (r : reb_simulation) (pj : list reb_particle) :
  p_jh (ri_whfast r) = Some pj ->
  safe_mode (ri_wkm r) = 0 ->
  let k := Z.quot (corrector (ri_wkm r)) 10 in
  let cs := calls_of (reb_integrator_wkm_part2 r) in
  List.length (filter is_force cs) =
    (if k =? 0 then 4%nat else if k =? 1 then 1%nat else 0%nat) /\
  List.length (filter is_kick cs) =
    (if k =? 0 then 5%nat else if k =? 1 then 1%nat else 0%nat) /\
  List.length (filter is_drift cs) = (if k =? 0 then 8%nat else 0%nat) /\
  (k <> 0 -> k <> 1 -> cs = []).
Proof.
  intros Hp Hs k cs. subst cs.
  rewrite (part2_calls_without_safe_mode r pj Hp Hs). cbv zeta. fold k.
  destruct (Z.eqb_spec k 0) as [H0|H0]; [|destruct (Z.eqb_spec k 1) as [H1|H1]];
    repeat split; try reflexivity; intros; congruence.
Qed.

Lemma part2_cost_witness :
  ExternalOk Toy.external /\
  p_jh (ri_whfast (Examples.sim 2)) = Some [Examples.sun; Examples.planet; Examples.moon] /\
  safe_mode (ri_wkm (Examples.sim 2)) = 0 /\
  List.length
    (filter is_force (calls_of (reb_integrator_wkm_part2 (E:=Toy.external) (Examples.sim 2))))
  = 4%nat.
Proof.
  split; [exact toy_external_ok|]. split; [reflexivity|]. split; [reflexivity|].
  exact (proj1 (part2_cost Toy.external toy_external_ok (Examples.sim 2) _
                  eq_refl eq_refl)).
Defined.

(** X13: the composition builder C(a,b) makes exactly the calls: orbital
    drift [a], centre-of-mass drift [a], inertial positions from the
    Coordinate Buffer, force evaluation, kick [b], orbital drift [-a],
    centre-of-mass drift [-a]; it writes no field itself, so the times, the
    particle count, the flags and the WKM configuration are untouched and
    the Coordinate Buffer keeps its shape. *)
Theorem apply_C_sequence (E : External) (HE : ExternalOk E)
  (a b : float) (r : reb_simulation) :
  let stages :=
    [call_kepler_step a; call_com_step a;
     call_jacobi_to_inertial_pos (N r); call_update_acceleration;
     call_interaction_step b;
     call_kepler_step (- a)%float; call_com_step (- a)%float] in
  reb_wkm_apply_C a b r = (tt, exec_all stages r, stages) /\
  control (state_of (reb_wkm_apply_C a b r)) = control r /\
  buffer_shape (state_of (reb_wkm_apply_C a b r)) = buffer_shape r.
Proof.
  cbv zeta. split.
  - rewrite apply_C_run, perform_all_run. reflexivity.
  - apply framed_apply_C.
Qed.

Lemma apply_C_sequence_witness :
  ExternalOk Toy.external /\
  calls_of (reb_wkm_apply_C (E:=Toy.external) 0.5 0.25 (Examples.sim 1)) =
  [call_kepler_step 0.5; call_com_step 0.5;
   call_jacobi_to_inertial_pos 3; call_update_acceleration;
   call_interaction_step 0.25;
   call_kepler_step (-0.5); call_com_step (-0.5)].
Proof.
  split; [exact toy_external_ok|].
  exact (f_equal calls_of
           (proj1 (apply_C_sequence Toy.external toy_external_ok 0.5 0.25
                     (Examples.sim 1)))).
Defined.

(** X14: the builders compose as nested call sequences, and their cost
    follows: Y(a,b) is C(a,b) then C(-a,-b); U(a,b) is a drift by [a], then
    Y(a,b), Y(a,-b), and a drift by [-a], with 4 force evaluations; the
    second corrector layer for the time step [d] is U(a,b) then U(-a,b)
    with [a = 0.5 d] and [b = 0.03486083443891981449909050107438281205803 d]:
    64 calls, of which 8 are force evaluations and 8 are kicks.  None of
    them changes the times, the particle count, the flags or the WKM
    configuration. *)
Theorem apply_corrector2_cost (E : External) (HE : ExternalOk E)
  (a b d : float) (r : reb_simulation) :
  let n := N r in
  calls_of (reb_wkm_apply_Y a b r) = C_stages n a b ++ C_stages n (- a)%float (- b)%float /\
  calls_of (reb_wkm_apply_U a b r) =
    drift a ++ calls_of (reb_wkm_apply_Y a b r) ++
    calls_of (reb_wkm_apply_Y a (- b)%float r) ++ drift (- a)%float /\
  List.length (filter is_force (calls_of (reb_wkm_apply_U a b r))) = 4%nat /\
  calls_of (reb_wkm_apply_corrector2 d r) =
    calls_of (reb_wkm_apply_U (0.5 * d)%float
                (0.03486083443891981449909050107438281205803 * d)%float r) ++
    calls_of (reb_wkm_apply_U (- (0.5 * d))%float
                (0.03486083443891981449909050107438281205803 * d)%float r) /\
  List.length (calls_of (reb_wkm_apply_corrector2 d r)) = 64%nat /\
  List.length (filter is_force (calls_of (reb_wkm_apply_corrector2 d r))) = 8%nat /\
  List.length (filter is_kick (calls_of (reb_wkm_apply_corrector2 d r))) = 8%nat /\
  control (state_of (reb_wkm_apply_corrector2 d r)) = control r.
Proof.
  cbv zeta.
  rewrite apply_corrector2_run, !apply_U_run, !apply_Y_run, !perform_all_run.
  unfold calls_of. cbn [snd].
  repeat split; try reflexivity.
  rewrite <- (perform_all_run (second_layer_stages (N r) d) r), <- apply_corrector2_run.
  apply (framed_apply_corrector2 d r).
Qed.

Lemma apply_corrector2_cost_witness :
  ExternalOk Toy.external /\
  List.length
    (filter is_force
       (calls_of (reb_wkm_apply_corrector2 (E:=Toy.external) 0.01 (Examples.sim 2))))
  = 8%nat.
Proof.
  split; [exact toy_external_ok|].
  exact (proj1 (proj2 (proj2 (proj2 (proj2 (proj2
           (apply_corrector2_cost Toy.external toy_external_ok 0 0 0.01
              (Examples.sim 2)))))))).
Defined.

(** X15: the reset.  Provided the WHFast reset leaves the WKM block alone,
    [reset] establishes [corrector = 1] (kernel 0, corrector digit 1),
    [safe_mode = 1], [is_synchronized = 1], a released Scratch Buffer and
    [allocated_N = 0], whatever the state before; it changes nothing else
    beyond what the WHFast reset does.  On the state it leaves,
    [synchronize] does nothing, and [step_part1] can only be rejected for
    the coordinate scheme. *)
Theorem reset_defaults (E : External) (R : ExternalReset) (r : reb_simulation) :
  (forall s, ri_wkm (ext_whfast_reset s) = ri_wkm s) ->
  let r' := reb_integrator_wkm_reset r in
  ri_wkm r' = mk_wkm 1 1 1 None 0 /\
  r' = set_ri_wkm (mk_wkm 1 1 1 None 0)
         (ext_whfast_reset (set_is_synchronized 1 (set_safe_mode 1 (set_corrector 1 r)))) /\
  reb_integrator_wkm_synchronize r' = (tt, r', []) /\
  (rejection_message r' = None <-> is_jacobi (coordinates (ri_whfast r')) = true).
Proof.
  intros Hw r'.
  assert (Hr : r' = set_ri_wkm (mk_wkm 1 1 1 None 0)
                 (ext_whfast_reset
                    (set_is_synchronized 1 (set_safe_mode 1 (set_corrector 1 r))))).
  { subst r'. unfold reb_integrator_wkm_reset. cbv zeta.
    set (s := ext_whfast_reset _).
    assert (Hs : ri_wkm s = mk_wkm 1 1 1 (temp_pj (ri_wkm r)) (allocated_N (ri_wkm r))).
    { unfold s. rewrite Hw. reflexivity. }
    destruct s as [? ? ? ? ? ? ? ? ? k ?]. cbn in Hs. subst k.
    destruct (temp_pj (ri_wkm r)); reflexivity. }
  assert (Hk : ri_wkm r' = mk_wkm 1 1 1 None 0) by (rewrite Hr; reflexivity).
  split; [exact Hk|]. split; [exact Hr|]. split.
  - unfold reb_integrator_wkm_synchronize. rewrite !bind_gets, Hk. reflexivity.
  - unfold rejection_message. rewrite Hk. cbn [corrector Z.quot Z.quot_rem Z.ltb].
    destruct (is_jacobi (coordinates (ri_whfast r'))); cbn [negb].
    + split; reflexivity.
    + destruct (0 <? var_config_N r'); split; discriminate.
Qed.

Lemma reset_defaults_witness :
  (forall s, ri_wkm (@ext_whfast_reset toy_reset s) = ri_wkm s) /\
  ri_wkm (reb_integrator_wkm_reset (R:=toy_reset)
            (state_of (reb_integrator_wkm_part2 (E:=Toy.external) (Examples.sim 11)))) =
  mk_wkm 1 1 1 None 0.
Proof.
  assert (H : forall s, ri_wkm (@ext_whfast_reset toy_reset s) = ri_wkm s)
    by (intro s; reflexivity).
  split; [exact H|].
  exact (proj1 (reset_defaults Toy.external toy_reset _ H)).
Defined.

(** X16: peeking is repeatable.  Under the keep-unsynchronized policy a
    second [synchronize] right after the first finds the state still
    unsynchronized and makes the same external calls, with the same
    arguments, as the first. *)
Theorem synchronize_peek_twice (E : External) (HE : ExternalOk E) (r : reb_simulation) :
  is_synchronized (ri_wkm r) = 0 ->
  keep_unsynchronized (ri_whfast r) <> 0 ->
  let r' := state_of (reb_integrator_wkm_synchronize r) in
  is_synchronized (ri_wkm r') = 0 /\
  calls_of (reb_integrator_wkm_synchronize r') =
  calls_of (reb_integrator_wkm_synchronize r).
Proof.
  intros Hs Hk r'.
  destruct (synchronize_effect r) as (Hc & _ & _ & _ & Hi). cbv zeta in Hc, Hi.
  fold r' in Hc, Hi.
  apply Z.eqb_neq in Hk. rewrite Hs, Hk in Hi. cbn [Z.eqb] in Hi.
  split; [exact Hi|].
  rewrite (synchronize_run r' Hi), (synchronize_run r Hs). cbv zeta.
  unfold calls_of. cbn [snd].
  unfold configuration in Hc. injection Hc as -> _ -> _ _ _ -> _. reflexivity.
Qed.

Lemma synchronize_peek_twice_witness :
  ExternalOk Toy.external /\
  is_synchronized (ri_wkm (Examples.sim_keep 1)) = 0 /\
  keep_unsynchronized (ri_whfast (Examples.sim_keep 1)) <> 0 /\
  calls_of
    (reb_integrator_wkm_synchronize (E:=Toy.external)
       (state_of (reb_integrator_wkm_synchronize (E:=Toy.external) (Examples.sim_keep 1))))
  = calls_of (reb_integrator_wkm_synchronize (E:=Toy.external) (Examples.sim_keep 1)).
Proof.
  assert (H : keep_unsynchronized (ri_whfast (Examples.sim_keep 1)) <> 0)
    by (vm_compute; discriminate).
  split; [exact toy_external_ok|]. split; [reflexivity|]. split; [exact H|].
  exact (proj2 (synchronize_peek_twice Toy.external toy_external_ok (Examples.sim_keep 1)
                  eq_refl H)).
Defined.

(** X17: the complete call list of an accepted [step_part1].  It starts
    with the WHFast initialisation; the Coordinate Buffer is recomputed
    from the inertial state exactly when safe mode is on or the
    initialisation left the recalculation flag raised; then come, if the
    state is synchronized, the corrector layers and the leading drift of
    the kernel, otherwise one full drift; the conversion to inertial form
    is last. *)
Theorem part1_accepted_calls (E : External) (HE : ExternalOk E) (r : reb_simulation) :
  rejection_message r = None ->
  fst (ext_whfast_init (set_gravity_ignore_terms 1 r)) = 0 ->
  let r1 := snd (ext_whfast_init (set_gravity_ignore_terms 1 r)) in
  let c := Z.rem (corrector (ri_wkm r)) 10 in
  let k := Z.quot (corrector (ri_wkm r)) 10 in
  calls_of (reb_integrator_wkm_part1 r) =
  [call_whfast_init] ++
  (if negb (safe_mode (ri_wkm r) =? 0)
      || negb (recalculate_coordinates_this_timestep (ri_whfast r1) =? 0)
   then [call_whfast_from_inertial] else []) ++
  (if is_synchronized (ri_wkm r) =? 0 then drift (dt r)
   else corrector_driver_stages false c (N r) (dt r) ++ leading_drift k (dt r)) ++
  [call_whfast_to_inertial].
Proof.
  intros Hm Hi. cbv zeta.
  rewrite (part1_accepted_run r Hm Hi). cbv zeta.
  rewrite bind_run, perform_all_run, prepare_step_run. cbv zeta.
  assert (Hsm : safe_mode (ri_wkm (exec call_whfast_init (set_gravity_ignore_terms 1 r))) =
                safe_mode (ri_wkm r)).
  { assert (Hc := exec_control call_whfast_init (set_gravity_ignore_terms 1 r)).
    apply control_fields in Hc.
    destruct Hc as (_ & _ & _ & _ & _ & _ & _ & _ & _ & ->). reflexivity. }
  rewrite Hsm. cbn [exec].
  destruct (_ || _); reflexivity.
Qed.

Lemma part1_accepted_calls_witness :
  ExternalOk Toy.external /\
  rejection_message (set_p_jh None (Examples.sim 1)) = None /\
  calls_of (reb_integrator_wkm_part1 (E:=Toy.external) (set_p_jh None (Examples.sim 1))) =
  [call_whfast_init; call_whfast_from_inertial;
   call_kepler_step 0.01; call_com_step 0.01; call_whfast_to_inertial].
Proof.
  split; [exact toy_external_ok|]. split; [reflexivity|].
  rewrite (part1_accepted_calls Toy.external toy_external_ok
             (set_p_jh None (Examples.sim 1)) eq_refl eq_refl).
  vm_compute. reflexivity.
Defined.

(** X18: the guard against variational particles only bites outside
    Jacobi coordinates.  With Jacobi coordinates and a kernel digit of at
    most 1, [step_part1] reports no error whatever [var_config_N] is: its
    first call is the WHFast initialisation and none of its calls is
    [reb_error]. *)
Theorem part1_variational_with_jacobi (E : External) (HE : ExternalOk E)
  (r : reb_simulation) :
  is_jacobi (coordinates (ri_whfast r)) = true ->
  Z.quot (corrector (ri_wkm r)) 10 <= 1 ->
  hd_error (calls_of (reb_integrator_wkm_part1 r)) = Some call_whfast_init /\
  filter is_error (calls_of (reb_integrator_wkm_part1 r)) = [].
Proof.
  intros Hj Hk.
  assert (Hm : rejection_message r = None).
  { unfold rejection_message. rewrite Hj. cbn [negb].
    destruct (Z.ltb_spec 1 (Z.quot (corrector (ri_wkm r)) 10)); [lia|reflexivity]. }
  destruct (Z.eq_dec (fst (ext_whfast_init (set_gravity_ignore_terms 1 r))) 0) as [Hi|Hi].
  - rewrite (part1_accepted_run r Hm Hi). cbv zeta.
    rewrite bind_run, perform_all_run, prepare_step_run. cbv zeta.
    assert (Hd : filter is_error
                   (corrector_driver_stages false (Z.rem (corrector (ri_wkm r)) 10)
                      (N r) (dt r)) = []).
    { assert (Hp := plain_corrector_driver_stages false
                      (Z.rem (corrector (ri_wkm r)) 10) (N r) (dt r)).
      induction (corrector_driver_stages _ _ _ _) as [|c l IH]; [reflexivity|].
      cbn in Hp. apply andb_prop in Hp as [Hc Hl].
      cbn [filter]. destruct c; try discriminate Hc; cbn [is_error]; auto. }
    assert (Hl : filter is_error
                   (leading_drift (Z.quot (corrector (ri_wkm r)) 10) (dt r)) = []).
    { unfold leading_drift. destruct (_ =? 0); [|destruct (_ =? 1)]; reflexivity. }
    destruct (_ || _); unfold calls_of, after_calls; cbn [fst snd];
      (split; [reflexivity|]);
      rewrite !filter_app;
      destruct (is_synchronized (ri_wkm r) =? 0);
      rewrite ?filter_app, ?Hd, ?Hl; reflexivity.
  - rewrite (part1_init_failed_run r Hm Hi). split; reflexivity.
Qed.

Lemma part1_variational_with_jacobi_witness :
  ExternalOk Toy.external /\
  var_config_N variational_sim = 2 /\
  is_jacobi (coordinates (ri_whfast variational_sim)) = true /\
  Z.quot (corrector (ri_wkm variational_sim)) 10 <= 1 /\
  filter is_error
    (calls_of (reb_integrator_wkm_part1 (E:=Toy.external) variational_sim)) = [].
Proof.
  assert (H : Z.quot (corrector (ri_wkm variational_sim)) 10 <= 1)
    by (vm_compute; discriminate).
  split; [exact toy_external_ok|]. split; [reflexivity|]. split; [reflexivity|].
  split; [exact H|].
  exact (proj2 (part1_variational_with_jacobi Toy.external toy_external_ok
                  variational_sim eq_refl H)).
Defined.
